(** * sentry_github.plugin: the GitHub issue bridge

    A shallow embedding of [src/sentry_github/plugin.py]: the options form
    ([GitHubOptionsForm]) and the plugin ([GitHubPlugin]) that turns the
    host's "create issue" and "list assignees" operations into calls of the
    GitHub REST API.

    The host framework (option storage, credential lookup, the HTTP helpers
    [safe_urlopen] / [safe_urlread]) and the JSON parser are collaborators
    the plugin only calls; they are the fields of the class [Host].
    Python exceptions are values of [exn]; a computation that may raise is
    an [outcome]; a computation that may also talk to GitHub is an [M],
    which records every outbound call in order. *)

From Stdlib Require Import Ascii String DecimalString.
From Stdlib Require DecimalPos DecimalZ.
From stdpp Require Import base numbers strings list gmap.

Local Open Scope string_scope.
Local Open Scope Z_scope.

Set Warnings "-register-all".

(** String concatenation computes on literals in the proofs below. *)
#[local] Arguments String.append !s1 s2 : simpl nomatch.

(** ** Python values *)

(** The values that cross the plugin: what [json.loads] produces, what the
    form hands over, what is sent as the request's JSON payload.  A [PDict]
    lists its items; subscripting takes the first item with the key.
    Numbers are integers: the module never looks inside a number, and the
    one it returns is an issue number. *)
Inductive pyval : Type :=
  | PNone
  | PBool (b : bool)
  | PInt (n : Z)
  | PStr (s : string)
  | PList (items : list pyval)
  | PDict (items : list (string * pyval)).

(** ** Exceptions *)

(** The exception classes the module raises, catches or lets through.
    [forms.ValidationError] carries whatever it was constructed with;
    [requests.RequestException] and [ValueError] carry the text that
    [unicode(e)] gives. *)
Inductive exn : Type :=
  | ValidationError (message : pyval)
  | RequestException (msg : string)
  | ValueError (msg : string)
  | KeyError (key : string)
  | TypeError (msg : string).

Inductive outcome (A : Type) : Type :=
  | Return (a : A)
  | Raise (e : exn).
Arguments Return {A} a.
Arguments Raise {A} e.

Definition obind {A B} (x : outcome A) (k : A -> outcome B) : outcome B :=
  match x with
  | Return a => k a
  | Raise e => Raise e
  end.

(** The three error kinds of the bridge are all [forms.ValidationError];
    they differ in the message.  The translation marker [_] of the source
    is taken as the identity (the untranslated locale). *)
Definition NotAuthenticated : exn :=
  ValidationError (PStr "You have not yet associated GitHub with your account.").

Definition CommunicationError (msg : string) : exn :=
  ValidationError (PStr ("Error communicating with GitHub: " +:+ msg)).

Definition RemoteRejected (message : pyval) : exn :=
  ValidationError message.

(** ** Built-in operations of Python used by the module *)

(** [d[key]] on a [dict] held as a finite map. *)
Definition dict_getitem {V} (d : gmap string V) (key : string) : outcome V :=
  match d !! key with
  | Some v => Return v
  | None => Raise (KeyError key)
  end.

(** [d.get(key)]: [None] when the key is absent. *)
Definition dict_get (d : gmap string pyval) (key : string) : pyval :=
  match d !! key with
  | Some v => v
  | None => PNone
  end.

Fixpoint assoc (key : string) (items : list (string * pyval)) : option pyval :=
  match items with
  | [] => None
  | (k, v) :: rest => if String.eqb k key then Some v else assoc key rest
  end.

(** [v[key]] with a string key, on any value: only a [dict] can answer. *)
Definition py_getitem (v : pyval) (key : string) : outcome pyval :=
  match v with
  | PDict items =>
      match assoc key items with
      | Some x => Return x
      | None => Raise (KeyError key)
      end
  | PList _ => Raise (TypeError "list indices must be integers, not str")
  | PStr _ => Raise (TypeError "string indices must be integers")
  | PNone | PBool _ | PInt _ => Raise (TypeError "object has no attribute '__getitem__'")
  end.

(** [for u in v]: the items of a list, the keys of a dict, the characters
    of a string; anything else is not iterable. *)
Fixpoint chars (s : string) : list pyval :=
  match s with
  | EmptyString => []
  | String c rest => PStr (String c EmptyString) :: chars rest
  end.

Definition py_iter (v : pyval) : outcome (list pyval) :=
  match v with
  | PList items => Return items
  | PDict items => Return (map (fun kv => PStr (fst kv)) items)
  | PStr s => Return (chars s)
  | PNone | PBool _ | PInt _ => Raise (TypeError "object is not iterable")
  end.

(** [x or default] where [x] is a stored option: [None] and the empty
    string are false. *)
Definition py_or (x : option string) (default : string) : string :=
  match x with
  | Some EmptyString => default
  | Some s => s
  | None => default
  end.

(** The operands of [%] in this module are option values (a string or
    [None]), strings and issue identifiers (a number or its text). *)
Inductive fmt_arg : Type :=
  | ANone
  | AStr (s : string)
  | AInt (n : Z).

Definition opt_arg (x : option string) : fmt_arg :=
  match x with
  | Some s => AStr s
  | None => ANone
  end.

(** [str(x)], as [%s] applies it. *)
Definition py_str (x : fmt_arg) : string :=
  match x with
  | ANone => "None"
  | AStr s => s
  | AInt n => NilZero.string_of_int (Z.to_int n)
  end.

(** [fmt % args] for the conversions the module uses: [%s] and [%%]. *)
Fixpoint py_format (fmt : string) (args : list fmt_arg) : outcome string :=
  match fmt with
  | EmptyString =>
      match args with
      | [] => Return EmptyString
      | _ :: _ =>
          Raise (TypeError "not all arguments converted during string formatting")
      end
  | String "%"%char (String "s"%char rest) =>
      match args with
      | [] => Raise (TypeError "not enough arguments for format string")
      | a :: args' =>
          obind (py_format rest args') (fun r => Return (py_str a +:+ r))
      end
  | String "%"%char (String "%"%char rest) =>
      obind (py_format rest args) (fun r => Return (String "%"%char r))
  | String "%"%char _ => Raise (ValueError "unsupported format character")
  | String c rest =>
      obind (py_format rest args) (fun r => Return (String c r))
  end.

(** [s.rstrip(chars)]: drop the trailing characters that occur in [chars]. *)
Fixpoint occurs (c : ascii) (cs : string) : bool :=
  match cs with
  | EmptyString => false
  | String d rest => if Ascii.eqb c d then true else occurs c rest
  end.

Fixpoint rstrip (cs : string) (s : string) : string :=
  match s with
  | EmptyString => EmptyString
  | String c rest =>
      match rstrip cs rest with
      | EmptyString => if occurs c cs then EmptyString else String c EmptyString
      | r => String c r
      end
  end.

(** ** The host framework *)

Definition User := string.
Definition Project := string.

Record Request := { user : User }.
Record Group := { project : Project }.

(** The identity record [get_auth_for_user] returns; [tokens] is the dict
    the plugin subscripts with ['access_token']. *)
Record Auth := { tokens : gmap string string }.

(** What [safe_urlopen] is called with. *)
Record HttpCall := {
  url : string;
  json : option pyval;
  headers : list (string * string)
}.

Record Response := {
  status_code : Z;
  stream : string
}.

(** The collaborators of the plugin: option storage ([None] when the
    option is not set), credential lookup, the two HTTP helpers of
    [sentry.http] and [sentry.utils.json.loads]. *)
Class Host := {
  get_option : string -> Project -> option string;
  get_auth_for_user : User -> option Auth;
  http_open : HttpCall -> outcome Response;
  http_read : Response -> outcome string;
  loads : string -> outcome pyval
}.

(** ** Computations that call out *)

(** The outcome together with the outbound calls made, oldest first. *)
Definition M (A : Type) : Type := outcome A * list HttpCall.

Definition ret {A} (a : A) : M A := (Return a, []).
Definition raise {A} (e : exn) : M A := (Raise e, []).
Definition lift {A} (x : outcome A) : M A := (x, []).

Definition bind {A B} (m : M A) (k : A -> M B) : M B :=
  match m with
  | (Return a, log) => let (r, log') := k a in (r, (log ++ log')%list)
  | (Raise e, log) => (Raise e, log)
  end.

Declare Scope py_scope.
Delimit Scope py_scope with py.
Notation "x <- m ;; k" := (bind m (fun x => k))
  (at level 100, m at next level, right associativity) : py_scope.
Local Open Scope py_scope.

(** [try: m  except C as e: ...]: [sel] recognises the class [C] and takes
    what the handler uses of [e]; any other exception goes through. *)
Definition try_except {A E} (m : M A) (sel : exn -> option E) : M (E + A) :=
  match m with
  | (Return a, log) => (Return (inr a), log)
  | (Raise e, log) =>
      match sel e with
      | Some x => (Return (inl x), log)
      | None => (Raise e, log)
      end
  end.

(** [except requests.RequestException as e], with [unicode(e)]. *)
Definition as_RequestException (e : exn) : option string :=
  match e with
  | RequestException msg => Some msg
  | _ => None
  end.

(** [except ValueError as e], with [unicode(e)]. *)
Definition as_ValueError (e : exn) : option string :=
  match e with
  | ValueError msg => Some msg
  | _ => None
  end.

Fixpoint mapM {A B} (f : A -> outcome B) (l : list A) : outcome (list B) :=
  match l with
  | [] => Return []
  | x :: rest =>
      obind (f x) (fun y => obind (mapM f rest) (fun ys => Return (y :: ys)))
  end.

(** The element of the generator in [get_allowed_assignees]:
    [(u['login'], u['login'])]. *)
Definition login_pair (u : pyval) : outcome (pyval * pyval) :=
  obind (py_getitem u "login") (fun a =>
  obind (py_getitem u "login") (fun b =>
  Return (a, b))).

Section Plugin.
Context `{Host}.

Definition safe_urlopen (call : HttpCall) : M Response :=
  (http_open call, [call]).

Definition safe_urlread (response : Response) : M string :=
  lift (http_read response).

(** *** GitHubOptionsForm *)

Definition clean_endpoint (cleaned_data : gmap string string) : outcome string :=
  obind (dict_getitem cleaned_data "endpoint") (fun data =>
  Return (rstrip "/" data)).

Definition clean_github_url (cleaned_data : gmap string string) : outcome string :=
  obind (dict_getitem cleaned_data "github_url") (fun data =>
  Return (rstrip "/" data)).

(** *** GitHubPlugin *)

Definition is_configured (project : Project) : bool :=
  match get_option "repo" project with
  | Some (String _ _) => true
  | _ => false
  end.

(** The address [make_api_request] computes (its lines for [repo],
    [endpoint] and [url]). *)
Definition build_request_url (project : Project) (github_api : string)
  : outcome string :=
  let repo := get_option "repo" project in
  let endpoint := py_or (get_option "endpoint" project) "https://api.github.com" in
  py_format "%s/repos/%s/%s" [AStr endpoint; opt_arg repo; AStr github_api].

Definition make_api_request (request : Request) (group : Group)
    (github_api : string) (json_data : option pyval) : M Response :=
  match get_auth_for_user (user request) with
  | None => raise NotAuthenticated
  | Some auth =>
      url <- lift (build_request_url (project group) github_api);;
      access_token <- lift (dict_getitem (tokens auth) "access_token");;
      authorization <- lift (py_format "token %s" [AStr access_token]);;
      let req_headers := [("Authorization", authorization)] in
      safe_urlopen {| url := url; json := json_data; headers := req_headers |}
  end.

Definition get_allowed_assignees (request : Request) (group : Group)
  : M (list (pyval * pyval)) :=
  attempt <- try_except
               (req <- make_api_request request group "assignees" None;;
                body <- safe_urlread req;;
                ret (req, body))
               as_RequestException;;
  match attempt with
  | inl _ => ret []
  | inr (req, body) =>
      parsed <- try_except (lift (loads body)) as_ValueError;;
      match parsed with
      | inl _ => ret []
      | inr json_resp =>
          if 399 <? status_code req then ret []
          else
            users <- lift (obind (py_iter json_resp) (mapM login_pair));;
            ret ((PStr "", PStr "Unassigned") :: users)
      end
  end.

Definition create_issue (request : Request) (group : Group)
    (form_data : gmap string pyval) : M pyval :=
  title <- lift (dict_getitem form_data "title");;
  description <- lift (dict_getitem form_data "description");;
  let json_data := PDict [("title", title);
                          ("body", description);
                          ("assignee", dict_get form_data "assignee")] in
  attempt <- try_except
               (req <- make_api_request request group "issues" (Some json_data);;
                body <- safe_urlread req;;
                ret (req, body))
               as_RequestException;;
  match attempt with
  | inl msg =>
      text <- lift (py_format "Error communicating with GitHub: %s" [AStr msg]);;
      raise (ValidationError (PStr text))
  | inr (req, body) =>
      parsed <- try_except (lift (loads body)) as_ValueError;;
      match parsed with
      | inl msg =>
          text <- lift (py_format "Error communicating with GitHub: %s" [AStr msg]);;
          raise (ValidationError (PStr text))
      | inr json_resp =>
          if 399 <? status_code req then
            message <- lift (py_getitem json_resp "message");;
            raise (ValidationError message)
          else
            lift (py_getitem json_resp "number")
      end
  end.

Definition get_issue_label (group : Group) (issue_id : fmt_arg) : outcome string :=
  py_format "GH-%s" [issue_id].

Definition get_issue_url (group : Group) (issue_id : fmt_arg) : outcome string :=
  let repo := get_option "repo" (project group) in
  let github_url := py_or (get_option "github_url" (project group)) "https://github.com" in
  py_format "%s/%s/issues/%s" [AStr github_url; opt_arg repo; issue_id].

End Plugin.

(** ** Vocabulary of the specification *)

(** An [IssueCreationRequest]: what the validated "new issue" form holds.
    [title] and [description] are required fields of the form, [assignee]
    is optional; [cleaned_data] is the dict the host passes as
    [form_data]. *)
Record IssueCreationRequest := {
  title : string;
  description : string;
  assignee : option string
}.

Definition cleaned_data (r : IssueCreationRequest) : gmap string pyval :=
  <["title" := PStr (title r)]>
    (<["description" := PStr (description r)]>
       (match assignee r with
        | Some a => {["assignee" := PStr a]}
        | None => ∅
        end)).

(** "The option if set, the default otherwise", read literally: any stored
    value, the empty string included, counts as set. *)
Definition stored_or (x : option string) (default : string) : string :=
  match x with
  | Some s => s
  | None => default
  end.

Fixpoint ends_with_slash (s : string) : bool :=
  match s with
  | EmptyString => false
  | String c EmptyString => Ascii.eqb c "/"
  | String _ rest => ends_with_slash rest
  end.

Definition starts_with_slash (s : string) : bool :=
  match s with
  | String c _ => Ascii.eqb c "/"
  | EmptyString => false
  end.

(** Number of places where two slashes are adjacent. *)
Fixpoint slash_pairs (s : string) : nat :=
  match s with
  | String c rest =>
      ((if Ascii.eqb c "/" && starts_with_slash rest then 1 else 0)
       + slash_pairs rest)%nat
  | EmptyString => 0%nat
  end.

Fixpoint slashes (k : nat) : string :=
  match k with
  | O => EmptyString
  | S k' => String "/" (slashes k')
  end.

Section Expected.
Context `{Host}.

(** The address the bridge is expected to call for [segment]. *)
Definition request_url (project : Project) (segment : string) : string :=
  py_or (get_option "endpoint" project) "https://api.github.com"
    +:+ "/repos/" +:+ py_str (opt_arg (get_option "repo" project))
    +:+ "/" +:+ segment.

(** The call the bridge is expected to make with access token [tok]. *)
Definition api_call (project : Project) (segment : string)
    (payload : option pyval) (tok : string) : HttpCall :=
  {| url := request_url project segment;
     json := payload;
     headers := [("Authorization", "token " +:+ tok)] |}.

End Expected.

(** The JSON payload of an issue creation, from the form's title,
    description and assignee. *)
Definition issue_payload (title description assignee : pyval) : pyval :=
  PDict [("title", title); ("body", description); ("assignee", assignee)].

(** ** A stub of GitHub, for concrete runs *)

Definition dq : string := String (ascii_of_nat 34) EmptyString.

Definition body_created : string := "{" +:+ dq +:+ "number" +:+ dq +:+ ": 42}".
Definition body_rejected : string :=
  "{" +:+ dq +:+ "message" +:+ dq +:+ ": " +:+ dq +:+ "Validation Failed" +:+ dq +:+ "}".
Definition body_users : string :=
  "[{" +:+ dq +:+ "login" +:+ dq +:+ ": " +:+ dq +:+ "alice" +:+ dq +:+ "}, {"
       +:+ dq +:+ "login" +:+ dq +:+ ": " +:+ dq +:+ "bob" +:+ dq +:+ "}]".
Definition body_empty_object : string := "{}".
Definition body_anonymous : string := "[{}]".
Definition body_html : string := "<html>502 Bad Gateway</html>".

(** The parser of the stub knows the bodies above; any other text is not
    JSON to it. *)
Definition stub_loads (body : string) : outcome pyval :=
  if String.eqb body body_created then Return (PDict [("number", PInt 42)])
  else if String.eqb body body_rejected then
    Return (PDict [("message", PStr "Validation Failed")])
  else if String.eqb body body_users then
    Return (PList [PDict [("login", PStr "alice")]; PDict [("login", PStr "bob")]])
  else if String.eqb body body_empty_object then Return (PDict [])
  else if String.eqb body body_anonymous then Return (PList [PDict []])
  else Raise (ValueError "No JSON object could be decoded").

Definition linked : Auth := {| tokens := {["access_token" := "s3cr3t"]} |}.

(** A host whose project has the given options, whose user has (or lacks)
    a credential, and whose network answers every call with [answer]. *)
Definition stub (options : gmap string string) (auth : option Auth)
    (answer : outcome Response) : Host :=
  {| get_option key _ := options !! key;
     get_auth_for_user _ := auth;
     http_open _ := answer;
     http_read response := Return (stream response);
     loads := stub_loads |}.

(** A host whose network hands out a response whose body cannot be read. *)
Definition stub_unreadable (options : gmap string string) (auth : option Auth)
    (status : Z) (failure : string) : Host :=
  {| get_option key _ := options !! key;
     get_auth_for_user _ := auth;
     http_open _ := Return {| status_code := status; stream := "" |};
     http_read _ := Raise (RequestException failure);
     loads := stub_loads |}.

Definition repo_only : gmap string string := {["repo" := "o/r"]}.

Definition alice : Request := {| user := "alice" |}.
Definition crash : Group := {| project := "backend" |}.
Definition report : IssueCreationRequest :=
  {| title := "TypeError in view"; description := "Traceback"; assignee := Some "bob" |}.

Definition slashed_repo : gmap string string := {["repo" := "o/r/"]}.

Definition enterprise : gmap string string :=
  <["endpoint" := "https://ghe.example.com/api/v3"]>
    (<["github_url" := "https://ghe.example.com"]> repo_only).

(** Options as the form stores them when "/" is typed for both addresses:
    [clean_endpoint] and [clean_github_url] leave the empty string. *)
Definition blank_urls : gmap string string :=
  <["endpoint" := ""]> (<["github_url" := ""]> repo_only).

(** Options written to the store with a trailing slash on the endpoint. *)
Definition slashed_endpoint : gmap string string :=
  <["endpoint" := "https://ghe.example.com/api/v3/"]> repo_only.

(** A host without credentials and without network. *)
Definition offline (options : gmap string string) : Host :=
  stub options None (Raise (RequestException "offline")).

Definition created : Response := {| status_code := 201; stream := body_created |}.
Definition rejected : Response := {| status_code := 422; stream := body_rejected |}.
Definition not_found : Response := {| status_code := 404; stream := body_rejected |}.
Definition bare_error : Response := {| status_code := 500; stream := body_empty_object |}.
Definition gateway_html : Response := {| status_code := 502; stream := body_html |}.
Definition users_found : Response := {| status_code := 200; stream := body_users |}.
Definition users_anonymous : Response := {| status_code := 200; stream := body_anonymous |}.

(** The two calls the stub sees for the project with [repo_only]. *)
Definition issues_post : HttpCall :=
  {| url := "https://api.github.com/repos/o/r/issues";
     json := Some (PDict [("title", PStr "TypeError in view");
                          ("body", PStr "Traceback");
                          ("assignee", PStr "bob")]);
     headers := [("Authorization", "token s3cr3t")] |}.

Definition assignees_get : HttpCall :=
  {| url := "https://api.github.com/repos/o/r/assignees";
     json := None;
     headers := [("Authorization", "token s3cr3t")] |}.

(** ** Failures of an exchange *)

(** The ways the exchange of [call] can fail to communicate, with the text
    of the failure: the request raises, the body read raises, or the body
    is not JSON. *)
Inductive communication_failure `{Host} (call : HttpCall) : string -> Prop :=
  | request_fails msg :
      http_open call = Raise (RequestException msg) ->
      communication_failure call msg
  | read_fails resp msg :
      http_open call = Return resp ->
      http_read resp = Raise (RequestException msg) ->
      communication_failure call msg
  | parse_fails resp body msg :
      http_open call = Return resp ->
      http_read resp = Return body ->
      loads body = Raise (ValueError msg) ->
      communication_failure call msg.

(** The failures [get_allowed_assignees] absorbs: a failure to
    communicate, or a status above 399 on a body that parses. *)
Inductive absorbed_failure `{Host} (call : HttpCall) : Prop :=
  | listing_fails msg :
      communication_failure call msg ->
      absorbed_failure call
  | listing_refused resp body json_resp :
      http_open call = Return resp ->
      http_read resp = Return body ->
      loads body = Return json_resp ->
      399 < status_code resp ->
      absorbed_failure call.

(** The exchange both operations start with: the request and the body
    read, under [except requests.RequestException]. *)
Definition exchange `{Host} (request : Request) (group : Group)
    (segment : string) (payload : option pyval)
  : M (string + Response * string) :=
  try_except
    (req <- make_api_request request group segment payload;;
     body <- safe_urlread req;;
     ret (req, body))
    as_RequestException.

(** ** The remaining hooks of the plugin *)

(** The "new issue" form: the host's form (bound to the posted data or
    unbound, with initial values) and the choices its [assignee] field is
    given by [GitHubNewIssueForm.__init__]. *)
Record GitHubNewIssueForm := {
  bound_data : option (gmap string pyval);
  initial_data : gmap string pyval;
  assignee_choices : list (pyval * pyval)
}.

Definition new_issue_form (choices : list (pyval * pyval))
    (data : option (gmap string pyval)) (initial : gmap string pyval)
  : GitHubNewIssueForm :=
  {| bound_data := data; initial_data := initial; assignee_choices := choices |}.

(** The request as the view has it: the user's request and its [POST]
    data. *)
Record WebRequest := {
  session : Request;
  POST : gmap string pyval
}.

(** [request.POST or None]: an empty [POST] is false. *)
Definition post_or_none (post : gmap string pyval) : option (gmap string pyval) :=
  if decide (post = ∅) then None else Some post.

Section Hooks.
Context `{Host}.

(** The host's [get_initial_form_data], over the events it is given. *)
Context {Event : Type}.
Variable get_initial_form_data : Request -> Group -> Event -> gmap string pyval.

(** [kwargs.get('group')] is [None] when the keyword is not passed. *)
Definition get_new_issue_read_only_fields (group : option Group) : list pyval :=
  match group with
  | Some g =>
      [PDict [("label", PStr "Github Repository");
              ("value", match get_option "repo" (project g) with
                        | Some repo => PStr repo
                        | None => PNone
                        end)]]
  | None => []
  end.

Definition get_new_issue_form (request : WebRequest) (group : Group)
    (event : Event) : M GitHubNewIssueForm :=
  choices <- get_allowed_assignees (session request) group;;
  ret (new_issue_form choices
         (post_or_none (POST request))
         (get_initial_form_data (session request) group event)).

End Hooks.

(** A credential that holds no access token. *)
Definition tokenless : Auth := {| tokens := ∅ |}.

(** A host whose network raises [failure]. *)
Definition broken (options : gmap string string) (failure : exn) : Host :=
  stub options (Some linked) (Raise failure).

(** A host whose body read raises [failure]. *)
Definition broken_read (options : gmap string string) (failure : exn) : Host :=
  {| get_option key _ := options !! key;
     get_auth_for_user _ := Some linked;
     http_open _ := Return {| status_code := 200; stream := "" |};
     http_read _ := Raise failure;
     loads := stub_loads |}.

(** A host whose parser raises [failure] on every body. *)
Definition broken_parser (options : gmap string string) (failure : exn) : Host :=
  {| get_option key _ := options !! key;
     get_auth_for_user _ := Some linked;
     http_open _ := Return {| status_code := 200; stream := "" |};
     http_read response := Return (stream response);
     loads _ := Raise failure |}.

(** A host whose parser answers [parsed] for every body of a 200. *)
Definition canned (options : gmap string string) (parsed : pyval) : Host :=
  {| get_option key _ := options !! key;
     get_auth_for_user _ := Some linked;
     http_open _ := Return {| status_code := 200; stream := "" |};
     http_read response := Return (stream response);
     loads _ := Return parsed |}.

Definition no_options : gmap string string := ∅.

Definition posted : WebRequest :=
  {| session := alice; POST := {["title" := PStr "TypeError in view"]} |}.

Definition opened : WebRequest := {| session := alice; POST := ∅ |}.

(** An issue request without an assignee. *)
Definition anonymous_report : IssueCreationRequest :=
  {| title := "TypeError in view"; description := "Traceback"; assignee := None |}.

(** What is typed into the options form when only slashes are given. *)
Definition typed_slashes : gmap string string :=
  <["endpoint" := "//"]> {["github_url" := "/"]}.

(** * Properties *)

(** ** Strings and formatting *)

Lemma append_empty_r (s : string) : s +:+ "" = s.
Proof. induction s as [|c s IH]; simpl; [reflexivity | by rewrite IH]. Qed.

Lemma communication_text (msg : string) :
  py_format "Error communicating with GitHub: %s" [AStr msg]
  = Return ("Error communicating with GitHub: " +:+ msg).
Proof. simpl. by rewrite append_empty_r. Qed.

Lemma authorization_text (tok : string) :
  py_format "token %s" [AStr tok] = Return ("token " +:+ tok).
Proof. simpl. by rewrite append_empty_r. Qed.

Lemma bind_lift_Return {A B} (a : A) (k : A -> M B) :
  bind (lift (Return a)) k = k a.
Proof. unfold bind, lift. by destruct (k a). Qed.

(** ** make_api_request *)

Section Facts.
Context `{Host}.

Lemma build_request_url_eq (project : Project) (segment : string) :
  build_request_url project segment = Return (request_url project segment).
Proof.
  unfold build_request_url, request_url. simpl.
  by rewrite append_empty_r.
Qed.

(** With a linked credential that holds an access token,
    [make_api_request] makes exactly the expected call and hands back
    what the network answers. *)
Lemma make_api_request_linked request group segment payload auth tok :
  get_auth_for_user (user request) = Some auth ->
  tokens auth !! "access_token" = Some tok ->
  make_api_request request group segment payload
  = (http_open (api_call (project group) segment payload tok),
     [api_call (project group) segment payload tok]).
Proof.
  intros Hauth Htok. unfold make_api_request. rewrite Hauth.
  rewrite build_request_url_eq. cbn [lift bind].
  unfold dict_getitem. rewrite Htok. cbn [lift bind].
  rewrite authorization_text. reflexivity.
Qed.

Lemma make_api_request_unlinked request group segment payload :
  get_auth_for_user (user request) = None ->
  make_api_request request group segment payload = (Raise NotAuthenticated, []).
Proof. intros Hauth. unfold make_api_request. by rewrite Hauth. Qed.

Lemma exchange_linked request group segment payload auth tok :
  get_auth_for_user (user request) = Some auth ->
  tokens auth !! "access_token" = Some tok ->
  exchange request group segment payload
  = (match http_open (api_call (project group) segment payload tok) with
     | Return resp =>
         match http_read resp with
         | Return body => Return (inr (resp, body))
         | Raise (RequestException msg) => Return (inl msg)
         | Raise e => Raise e
         end
     | Raise (RequestException msg) => Return (inl msg)
     | Raise e => Raise e
     end,
     [api_call (project group) segment payload tok]).
Proof.
  intros Hauth Htok. unfold exchange.
  rewrite (make_api_request_linked _ _ _ _ _ _ Hauth Htok).
  destruct (http_open _) as [resp | e]; [| by destruct e].
  unfold safe_urlread. cbn [lift bind ret try_except app].
  destruct (http_read resp) as [body | e]; [reflexivity | by destruct e].
Qed.

Lemma exchange_unlinked request group segment payload :
  get_auth_for_user (user request) = None ->
  exchange request group segment payload = (Raise NotAuthenticated, []).
Proof.
  intros Hauth. unfold exchange.
  by rewrite (make_api_request_unlinked _ _ _ _ Hauth).
Qed.

End Facts.

(** ** is_configured *)

Lemma is_configured_iff `{Host} (project : Project) :
  is_configured project = false
  <-> get_option "repo" project = None \/ get_option "repo" project = Some "".
Proof.
  unfold is_configured.
  destruct (get_option "repo" project) as [[|c repo]|]; intuition congruence.
Qed.

(** ** create_issue *)

Lemma cleaned_title (r : IssueCreationRequest) :
  cleaned_data r !! "title" = Some (PStr (title r)).
Proof. unfold cleaned_data. by rewrite lookup_insert_eq. Qed.

Lemma cleaned_description (r : IssueCreationRequest) :
  cleaned_data r !! "description" = Some (PStr (description r)).
Proof.
  unfold cleaned_data.
  rewrite lookup_insert_ne by done. by rewrite lookup_insert_eq.
Qed.

(** A dict without the required fields stops [create_issue] at the
    subscript, before anything else happens. *)
Lemma create_issue_without_title `{Host} request group :
  create_issue request group ∅ = (Raise (KeyError "title"), []).
Proof. reflexivity. Qed.

(** With the two required fields in the form data, [create_issue] builds
    the payload and starts the exchange. *)
Lemma create_issue_requested `{Host} request group
    (form_data : gmap string pyval) t d :
  form_data !! "title" = Some t ->
  form_data !! "description" = Some d ->
  create_issue request group form_data
  = (attempt <- exchange request group "issues"
                  (Some (issue_payload t d (dict_get form_data "assignee")));;
     match attempt with
     | inl msg =>
         text <- lift (py_format "Error communicating with GitHub: %s" [AStr msg]);;
         raise (ValidationError (PStr text))
     | inr (req, body) =>
         parsed <- try_except (lift (loads body)) as_ValueError;;
         match parsed with
         | inl msg =>
             text <- lift (py_format "Error communicating with GitHub: %s" [AStr msg]);;
             raise (ValidationError (PStr text))
         | inr json_resp =>
             if 399 <? status_code req then
               message <- lift (py_getitem json_resp "message");;
               raise (ValidationError message)
             else
               lift (py_getitem json_resp "number")
         end
     end).
Proof.
  intros Ht Hd. unfold create_issue, dict_getitem.
  by rewrite Ht, bind_lift_Return, Hd, bind_lift_Return.
Qed.

(** What [create_issue] does once the exchange has succeeded and the body
    has been parsed: the status decides between the two subscripts. *)
Lemma create_issue_parsed `{Host} request group (form_data : gmap string pyval)
    t d auth tok resp body json_resp :
  form_data !! "title" = Some t ->
  form_data !! "description" = Some d ->
  get_auth_for_user (user request) = Some auth ->
  tokens auth !! "access_token" = Some tok ->
  http_open (api_call (project group) "issues"
               (Some (issue_payload t d (dict_get form_data "assignee"))) tok)
    = Return resp ->
  http_read resp = Return body ->
  loads body = Return json_resp ->
  create_issue request group form_data
  = (if 399 <? status_code resp
     then obind (py_getitem json_resp "message")
            (fun message => Raise (ValidationError message))
     else py_getitem json_resp "number",
     [api_call (project group) "issues"
        (Some (issue_payload t d (dict_get form_data "assignee"))) tok]).
Proof.
  intros Ht Hd Hauth Htok Hopen Hread Hloads.
  rewrite (create_issue_requested _ _ _ _ _ Ht Hd).
  rewrite (exchange_linked _ _ _ _ _ _ Hauth Htok), Hopen, Hread.
  cbn [lift bind ret try_except app].
  rewrite Hloads. cbn [lift bind ret try_except app].
  destruct (399 <? status_code resp); cbn [lift bind ret try_except app].
  - destruct (py_getitem json_resp "message"); reflexivity.
  - destruct (py_getitem json_resp "number"); reflexivity.
Qed.

(** C1. With a linked credential, a successful exchange (of the payload
    built from the form's title and description), a body that parses and a
    status of at most 399, [create_issue] makes the one POST to the issues
    address and its outcome is the subscript
    [json_resp['number']]: when the parsed body has that field, the field's
    value is returned as the issue identifier.  In particular a 201 whose
    body parses to the object with [number] 42 returns 42. *)
Theorem create_issue_returns_number `{Host} request group
    (form_data : gmap string pyval) t d auth tok resp body json_resp :
  form_data !! "title" = Some t ->
  form_data !! "description" = Some d ->
  get_auth_for_user (user request) = Some auth ->
  tokens auth !! "access_token" = Some tok ->
  http_open (api_call (project group) "issues"
               (Some (issue_payload t d (dict_get form_data "assignee"))) tok)
    = Return resp ->
  http_read resp = Return body ->
  loads body = Return json_resp ->
  status_code resp <= 399 ->
  create_issue request group form_data
  = (py_getitem json_resp "number",
     [api_call (project group) "issues"
        (Some (issue_payload t d (dict_get form_data "assignee"))) tok])
  /\ (forall number, py_getitem json_resp "number" = Return number ->
      fst (create_issue request group form_data) = Return number)
  /\ (status_code resp = 201 -> json_resp = PDict [("number", PInt 42)] ->
      fst (create_issue request group form_data) = Return (PInt 42)).
Proof.
  intros Ht Hd Hauth Htok Hopen Hread Hloads Hstatus.
  rewrite (create_issue_parsed _ _ _ _ _ _ _ _ _ _ Ht Hd Hauth Htok Hopen Hread Hloads).
  destruct (Z.ltb_spec 399 (status_code resp)); [lia |].
  split; [reflexivity |]. split.
  - by intros number ->.
  - by intros _ ->.
Qed.

(** C2. Without a linked credential [create_issue] raises the
    NotAuthenticated validation error and makes no outbound call, whatever
    the project options, the network and the issue request are: for every
    issue request of the form, and for every form data that has the two
    fields the form requires. *)
Theorem create_issue_not_authenticated `{Host} request group :
  get_auth_for_user (user request) = None ->
  (forall r : IssueCreationRequest,
     create_issue request group (cleaned_data r) = (Raise NotAuthenticated, []))
  /\ (forall form_data : gmap string pyval,
      is_Some (form_data !! "title") ->
      is_Some (form_data !! "description") ->
      create_issue request group form_data = (Raise NotAuthenticated, [])).
Proof.
  intros Hauth.
  assert (Hany : forall form_data : gmap string pyval,
             is_Some (form_data !! "title") ->
             is_Some (form_data !! "description") ->
             create_issue request group form_data = (Raise NotAuthenticated, [])).
  { intros form_data [t Ht] [d Hd].
    rewrite (create_issue_requested _ _ _ _ _ Ht Hd).
    by rewrite (exchange_unlinked _ _ _ _ Hauth). }
  split; [| exact Hany].
  intros r. apply Hany.
  - rewrite cleaned_title. by eexists.
  - rewrite cleaned_description. by eexists.
Qed.

(** C3. With a successful exchange, a body that parses and a status above
    399, [create_issue] raises RemoteRejected carrying exactly the value of
    the parsed body's [message] field.  In particular a 422 whose body
    parses to the object with [message] "Validation Failed" raises
    RemoteRejected("Validation Failed"). *)
Theorem create_issue_remote_rejected `{Host} request group
    (form_data : gmap string pyval) t d auth tok resp body json_resp message :
  form_data !! "title" = Some t ->
  form_data !! "description" = Some d ->
  get_auth_for_user (user request) = Some auth ->
  tokens auth !! "access_token" = Some tok ->
  http_open (api_call (project group) "issues"
               (Some (issue_payload t d (dict_get form_data "assignee"))) tok)
    = Return resp ->
  http_read resp = Return body ->
  loads body = Return json_resp ->
  399 < status_code resp ->
  py_getitem json_resp "message" = Return message ->
  create_issue request group form_data
  = (Raise (RemoteRejected message),
     [api_call (project group) "issues"
        (Some (issue_payload t d (dict_get form_data "assignee"))) tok])
  /\ (status_code resp = 422 ->
      json_resp = PDict [("message", PStr "Validation Failed")] ->
      fst (create_issue request group form_data)
      = Raise (RemoteRejected (PStr "Validation Failed"))).
Proof.
  intros Ht Hd Hauth Htok Hopen Hread Hloads Hstatus Hmessage.
  rewrite (create_issue_parsed _ _ _ _ _ _ _ _ _ _ Ht Hd Hauth Htok Hopen Hread Hloads).
  destruct (Z.ltb_spec 399 (status_code resp)); [| lia].
  rewrite Hmessage. split; [reflexivity |].
  intros _ Hbody. subst json_resp. simpl in Hmessage. by inversion Hmessage.
Qed.

(** C4. With a linked credential, a transport failure of the request or of
    the body read, and a body that does not parse, all make [create_issue]
    raise CommunicationError carrying the text of the underlying failure;
    no issue identifier is returned. *)
Theorem create_issue_communication_error `{Host} request group
    (form_data : gmap string pyval) t d auth tok msg :
  form_data !! "title" = Some t ->
  form_data !! "description" = Some d ->
  get_auth_for_user (user request) = Some auth ->
  tokens auth !! "access_token" = Some tok ->
  communication_failure
    (api_call (project group) "issues"
       (Some (issue_payload t d (dict_get form_data "assignee"))) tok) msg ->
  create_issue request group form_data
  = (Raise (CommunicationError msg),
     [api_call (project group) "issues"
        (Some (issue_payload t d (dict_get form_data "assignee"))) tok])
  /\ (forall issue_id,
      fst (create_issue request group form_data) <> Return issue_id).
Proof.
  intros Ht Hd Hauth Htok Hfail.
  assert (Hrun : create_issue request group form_data
                 = (Raise (CommunicationError msg),
                    [api_call (project group) "issues"
                       (Some (issue_payload t d (dict_get form_data "assignee"))) tok])).
  { rewrite (create_issue_requested _ _ _ _ _ Ht Hd).
    rewrite (exchange_linked _ _ _ _ _ _ Hauth Htok).
    destruct Hfail as [msg Hopen | resp msg Hopen Hread | resp body msg Hopen Hread Hloads];
      rewrite Hopen; try rewrite Hread; cbn [lift bind ret try_except app].
    - by rewrite communication_text.
    - by rewrite communication_text.
    - rewrite Hloads. cbn [lift bind ret try_except app as_ValueError].
      by rewrite communication_text. }
  split; [exact Hrun |].
  intros issue_id. by rewrite Hrun.
Qed.

(** C10. With a successful exchange, a status above 399 and a body that
    parses to an object without a [message] key, [create_issue] raises
    [KeyError('message')], which is none of NotAuthenticated,
    CommunicationError and RemoteRejected. *)
Theorem create_issue_missing_message `{Host} request group
    (form_data : gmap string pyval) t d auth tok resp body items :
  form_data !! "title" = Some t ->
  form_data !! "description" = Some d ->
  get_auth_for_user (user request) = Some auth ->
  tokens auth !! "access_token" = Some tok ->
  http_open (api_call (project group) "issues"
               (Some (issue_payload t d (dict_get form_data "assignee"))) tok)
    = Return resp ->
  http_read resp = Return body ->
  loads body = Return (PDict items) ->
  assoc "message" items = None ->
  399 < status_code resp ->
  create_issue request group form_data
  = (Raise (KeyError "message"),
     [api_call (project group) "issues"
        (Some (issue_payload t d (dict_get form_data "assignee"))) tok])
  /\ KeyError "message" <> NotAuthenticated
  /\ (forall msg, KeyError "message" <> CommunicationError msg)
  /\ (forall message, KeyError "message" <> RemoteRejected message).
Proof.
  intros Ht Hd Hauth Htok Hopen Hread Hloads Hitems Hstatus. split.
  - rewrite (create_issue_parsed _ _ _ _ _ _ _ _ _ _ Ht Hd Hauth Htok Hopen Hread Hloads).
    destruct (Z.ltb_spec 399 (status_code resp)); [| lia].
    simpl. by rewrite Hitems.
  - repeat split; intros; discriminate.
Qed.

(** *** Concrete runs of create_issue *)

(** Status 201 with body [{"number": 42}] returns 42. *)
Lemma create_issue_returns_number_witness :
  create_issue (H := stub repo_only (Some linked) (Return created))
    alice crash (cleaned_data report)
  = (Return (PInt 42), [issues_post]).
Proof.
  apply (create_issue_returns_number (H := stub repo_only (Some linked) (Return created))
           alice crash (cleaned_data report)
           (PStr "TypeError in view") (PStr "Traceback")
           linked "s3cr3t" created body_created
           (PDict [("number", PInt 42)])); first [reflexivity | simpl; lia].
Defined.

(** No credential: NotAuthenticated, nothing sent. *)
Lemma create_issue_not_authenticated_witness :
  create_issue (H := stub repo_only None (Return created))
    alice crash (cleaned_data report)
  = (Raise NotAuthenticated, []).
Proof.
  apply (proj1 (create_issue_not_authenticated
                  (H := stub repo_only None (Return created)) alice crash eq_refl)
           report).
Defined.

(** Status 422 with body [{"message": "Validation Failed"}]. *)
Lemma create_issue_remote_rejected_witness :
  create_issue (H := stub repo_only (Some linked) (Return rejected))
    alice crash (cleaned_data report)
  = (Raise (RemoteRejected (PStr "Validation Failed")), [issues_post]).
Proof.
  apply (create_issue_remote_rejected (H := stub repo_only (Some linked) (Return rejected))
           alice crash (cleaned_data report)
           (PStr "TypeError in view") (PStr "Traceback")
           linked "s3cr3t" rejected body_rejected
           (PDict [("message", PStr "Validation Failed")])
           (PStr "Validation Failed")); first [reflexivity | simpl; lia].
Defined.

(** A timeout of the request, a connection reset while reading, and an
    HTML error page instead of JSON. *)
Lemma create_issue_communication_error_witness :
  create_issue (H := stub repo_only (Some linked) (Raise (RequestException "timed out")))
    alice crash (cleaned_data report)
  = (Raise (CommunicationError "timed out"), [issues_post])
  /\ create_issue (H := stub_unreadable repo_only (Some linked) 200 "connection reset")
       alice crash (cleaned_data report)
     = (Raise (CommunicationError "connection reset"), [issues_post])
  /\ create_issue (H := stub repo_only (Some linked) (Return gateway_html))
       alice crash (cleaned_data report)
     = (Raise (CommunicationError "No JSON object could be decoded"), [issues_post]).
Proof.
  refine (conj _ (conj _ _)).
  - apply (create_issue_communication_error
             (H := stub repo_only (Some linked) (Raise (RequestException "timed out")))
             alice crash (cleaned_data report)
             (PStr "TypeError in view") (PStr "Traceback")
             linked "s3cr3t" "timed out");
      [reflexivity | reflexivity | reflexivity | reflexivity |].
    apply request_fails. reflexivity.
  - apply (create_issue_communication_error
             (H := stub_unreadable repo_only (Some linked) 200 "connection reset")
             alice crash (cleaned_data report)
             (PStr "TypeError in view") (PStr "Traceback")
             linked "s3cr3t" "connection reset");
      [reflexivity | reflexivity | reflexivity | reflexivity |].
    apply (read_fails _ {| status_code := 200; stream := "" |}); reflexivity.
  - apply (create_issue_communication_error
             (H := stub repo_only (Some linked) (Return gateway_html))
             alice crash (cleaned_data report)
             (PStr "TypeError in view") (PStr "Traceback")
             linked "s3cr3t" "No JSON object could be decoded");
      [reflexivity | reflexivity | reflexivity | reflexivity |].
    apply (parse_fails _ gateway_html body_html); reflexivity.
Defined.

(** Status 500 with body [{}]: the subscript fails. *)
Lemma create_issue_missing_message_witness :
  create_issue (H := stub repo_only (Some linked) (Return bare_error))
    alice crash (cleaned_data report)
  = (Raise (KeyError "message"), [issues_post]).
Proof.
  apply (create_issue_missing_message (H := stub repo_only (Some linked) (Return bare_error))
           alice crash (cleaned_data report)
           (PStr "TypeError in view") (PStr "Traceback")
           linked "s3cr3t" bare_error body_empty_object []);
    first [reflexivity | simpl; lia].
Defined.

(** ** get_allowed_assignees *)

Lemma mapM_login_pairs (users logins : list pyval) :
  Forall2 (fun u login => py_getitem u "login" = Return login) users logins ->
  mapM login_pair users = Return (map (fun login => (login, login)) logins).
Proof.
  induction 1 as [|u login users logins Hu _ IH]; [reflexivity |].
  simpl. unfold login_pair at 1. rewrite Hu. simpl. by rewrite IH.
Qed.

Lemma get_allowed_assignees_requested `{Host} request group :
  get_allowed_assignees request group
  = (attempt <- exchange request group "assignees" None;;
     match attempt with
     | inl _ => ret []
     | inr (req, body) =>
         parsed <- try_except (lift (loads body)) as_ValueError;;
         match parsed with
         | inl _ => ret []
         | inr json_resp =>
             if 399 <? status_code req then ret []
             else
               users <- lift (obind (py_iter json_resp) (mapM login_pair));;
               ret ((PStr "", PStr "Unassigned") :: users)
         end
     end).
Proof. reflexivity. Qed.

(** What [get_allowed_assignees] does once the exchange has succeeded and
    the body has been parsed. *)
Lemma get_allowed_assignees_parsed `{Host} request group auth tok resp body json_resp :
  get_auth_for_user (user request) = Some auth ->
  tokens auth !! "access_token" = Some tok ->
  http_open (api_call (project group) "assignees" None tok) = Return resp ->
  http_read resp = Return body ->
  loads body = Return json_resp ->
  get_allowed_assignees request group
  = (if 399 <? status_code resp then Return []
     else obind (obind (py_iter json_resp) (mapM login_pair))
            (fun users => Return ((PStr "", PStr "Unassigned") :: users)),
     [api_call (project group) "assignees" None tok]).
Proof.
  intros Hauth Htok Hopen Hread Hloads.
  rewrite get_allowed_assignees_requested.
  rewrite (exchange_linked _ _ _ _ _ _ Hauth Htok), Hopen, Hread.
  cbn [lift bind ret try_except app].
  rewrite Hloads. cbn [lift bind ret try_except app].
  destruct (399 <? status_code resp); cbn [lift bind ret try_except app];
    [reflexivity |].
  destruct (obind (py_iter json_resp) (mapM login_pair)); reflexivity.
Qed.

(** C8. With a linked credential, a successful exchange, a status of at
    most 399 and a body that parses to a list of objects that each have a
    [login], the result is the sentinel [('', 'Unassigned')] followed by
    one [(login, login)] pair per user, in the order of the body; one GET
    of the assignees address is made.  In particular the logins alice and
    bob give [('', 'Unassigned'), ('alice','alice'), ('bob','bob')]. *)
Theorem get_allowed_assignees_success `{Host} request group auth tok resp body users logins :
  get_auth_for_user (user request) = Some auth ->
  tokens auth !! "access_token" = Some tok ->
  http_open (api_call (project group) "assignees" None tok) = Return resp ->
  http_read resp = Return body ->
  loads body = Return (PList users) ->
  Forall2 (fun u login => py_getitem u "login" = Return login) users logins ->
  status_code resp <= 399 ->
  get_allowed_assignees request group
  = (Return ((PStr "", PStr "Unassigned")
             :: map (fun login => (login, login)) logins),
     [api_call (project group) "assignees" None tok])
  /\ (users = [PDict [("login", PStr "alice")]; PDict [("login", PStr "bob")]] ->
      fst (get_allowed_assignees request group)
      = Return [(PStr "", PStr "Unassigned");
                (PStr "alice", PStr "alice");
                (PStr "bob", PStr "bob")]).
Proof.
  intros Hauth Htok Hopen Hread Hloads Hlogins Hstatus.
  rewrite (get_allowed_assignees_parsed _ _ _ _ _ _ _ Hauth Htok Hopen Hread Hloads).
  destruct (Z.ltb_spec 399 (status_code resp)); [lia |].
  split.
  - simpl. by rewrite (mapM_login_pairs _ _ Hlogins).
  - by intros ->.
Qed.

(** The body [[{"login": "alice"}, {"login": "bob"}]]. *)
Lemma get_allowed_assignees_success_witness :
  get_allowed_assignees (H := stub repo_only (Some linked) (Return users_found))
    alice crash
  = (Return [(PStr "", PStr "Unassigned");
             (PStr "alice", PStr "alice");
             (PStr "bob", PStr "bob")],
     [assignees_get]).
Proof.
  apply (get_allowed_assignees_success
           (H := stub repo_only (Some linked) (Return users_found))
           alice crash linked "s3cr3t" users_found body_users
           [PDict [("login", PStr "alice")]; PDict [("login", PStr "bob")]]
           [PStr "alice"; PStr "bob"]);
    first [reflexivity | simpl; lia | repeat constructor].
Defined.

(** C5, as the code has it.  A transport failure of the request or of the
    body read, a body that is not JSON and a status above 399 are absorbed
    into the empty sequence, without the sentinel.  A missing credential is
    not absorbed: [get_allowed_assignees] raises NotAuthenticated and makes
    no call. *)
Theorem get_allowed_assignees_failures `{Host} request group :
  (get_auth_for_user (user request) = None ->
   get_allowed_assignees request group = (Raise NotAuthenticated, []))
  /\ (forall auth tok,
      get_auth_for_user (user request) = Some auth ->
      tokens auth !! "access_token" = Some tok ->
      absorbed_failure (api_call (project group) "assignees" None tok) ->
      get_allowed_assignees request group
      = (Return [], [api_call (project group) "assignees" None tok])).
Proof.
  split.
  - intros Hauth. rewrite get_allowed_assignees_requested.
    by rewrite (exchange_unlinked _ _ _ _ Hauth).
  - intros auth tok Hauth Htok [msg Hfail | resp body json_resp Hopen Hread Hloads Hstatus].
    + rewrite get_allowed_assignees_requested.
      rewrite (exchange_linked _ _ _ _ _ _ Hauth Htok).
      destruct Hfail as [msg Hopen | resp msg Hopen Hread
                        | resp body msg Hopen Hread Hloads];
        rewrite Hopen; try rewrite Hread; cbn [lift bind ret try_except app];
        [reflexivity | reflexivity |].
      by rewrite Hloads.
    + rewrite (get_allowed_assignees_parsed _ _ _ _ _ _ _ Hauth Htok Hopen Hread Hloads).
      destruct (Z.ltb_spec 399 (status_code resp)); [reflexivity | lia].
Qed.

(** No credential; a timeout; a connection reset while reading; an HTML
    error page; a 404 with a JSON error body. *)
Lemma get_allowed_assignees_failures_witness :
  get_allowed_assignees (H := stub repo_only None (Return users_found)) alice crash
  = (Raise NotAuthenticated, [])
  /\ get_allowed_assignees
       (H := stub repo_only (Some linked) (Raise (RequestException "timed out")))
       alice crash
     = (Return [], [assignees_get])
  /\ get_allowed_assignees
       (H := stub_unreadable repo_only (Some linked) 200 "connection reset")
       alice crash
     = (Return [], [assignees_get])
  /\ get_allowed_assignees (H := stub repo_only (Some linked) (Return gateway_html))
       alice crash
     = (Return [], [assignees_get])
  /\ get_allowed_assignees (H := stub repo_only (Some linked) (Return not_found))
       alice crash
     = (Return [], [assignees_get]).
Proof.
  refine (conj _ (conj _ (conj _ (conj _ _)))).
  - apply (proj1 (get_allowed_assignees_failures
                    (H := stub repo_only None (Return users_found)) alice crash)).
    reflexivity.
  - apply (proj2 (get_allowed_assignees_failures
                    (H := stub repo_only (Some linked) (Raise (RequestException "timed out")))
                    alice crash) linked "s3cr3t"); [reflexivity | reflexivity |].
    apply (listing_fails _ "timed out"), request_fails. reflexivity.
  - apply (proj2 (get_allowed_assignees_failures
                    (H := stub_unreadable repo_only (Some linked) 200 "connection reset")
                    alice crash) linked "s3cr3t"); [reflexivity | reflexivity |].
    apply (listing_fails _ "connection reset"),
          (read_fails _ {| status_code := 200; stream := "" |}); reflexivity.
  - apply (proj2 (get_allowed_assignees_failures
                    (H := stub repo_only (Some linked) (Return gateway_html))
                    alice crash) linked "s3cr3t"); [reflexivity | reflexivity |].
    apply (listing_fails _ "No JSON object could be decoded"),
          (parse_fails _ gateway_html body_html); reflexivity.
  - apply (proj2 (get_allowed_assignees_failures
                    (H := stub repo_only (Some linked) (Return not_found))
                    alice crash) linked "s3cr3t"); [reflexivity | reflexivity |].
    apply (listing_refused _ not_found body_rejected
             (PDict [("message", PStr "Validation Failed")])); reflexivity.
Defined.

(** C5 as stated fails: with no linked credential the listing raises
    instead of returning the empty sequence. *)
Lemma get_allowed_assignees_raises_unlinked :
  get_auth_for_user (Host := stub repo_only None (Return users_found)) (user alice) = None
  /\ get_allowed_assignees (H := stub repo_only None (Return users_found)) alice crash
     = (Raise NotAuthenticated, [])
  /\ fst (get_allowed_assignees (H := stub repo_only None (Return users_found)) alice crash)
     <> Return [].
Proof. split; [reflexivity | split; [reflexivity | discriminate]]. Qed.

(** A body of an unexpected structure is not absorbed either: a user
    object without [login] stops the listing at the subscript. *)
Lemma get_allowed_assignees_unexpected_structure :
  get_allowed_assignees (H := stub repo_only (Some linked) (Return users_anonymous))
    alice crash
  = (Raise (KeyError "login"), [assignees_get]).
Proof. reflexivity. Qed.

(** ** Slashes *)

Lemma ends_with_slash_cons c s :
  ends_with_slash (String c s)
  = match s with EmptyString => Ascii.eqb c "/" | _ => ends_with_slash s end.
Proof. reflexivity. Qed.

Lemma rstrip_no_trailing_slash (s : string) :
  ends_with_slash (rstrip "/" s) = false.
Proof.
  induction s as [|c s IH]; [reflexivity |].
  simpl. destruct (rstrip "/" s) as [|d r] eqn:E.
  - destruct (Ascii.eqb c "/") eqn:Ec; simpl; [reflexivity | by rewrite Ec].
  - by rewrite ends_with_slash_cons.
Qed.

Lemma rstrip_drops_slashes (s : string) :
  exists k, s = rstrip "/" s +:+ slashes k.
Proof.
  induction s as [|c s [k IH]]; [by exists 0%nat |].
  simpl. destruct (rstrip "/" s) as [|d r] eqn:E.
  - destruct (Ascii.eqb_spec c "/") as [-> | _].
    + exists (S k). simpl in *. by rewrite <- IH.
    + exists k. simpl in *. by rewrite <- IH.
  - exists k. simpl in *. by rewrite <- IH.
Qed.

Lemma starts_with_slash_app (a b : string) :
  starts_with_slash (a +:+ b)
  = match a with EmptyString => starts_with_slash b | _ => starts_with_slash a end.
Proof. by destruct a. Qed.

Lemma ends_with_slash_app (a b : string) :
  ends_with_slash (a +:+ b)
  = match b with EmptyString => ends_with_slash a | _ => ends_with_slash b end.
Proof.
  induction a as [|c a IH]; [by destruct b |].
  change (String c a +:+ b) with (String c (a +:+ b)).
  rewrite ends_with_slash_cons, IH.
  destruct a as [|c' a]; destruct b as [|d b]; reflexivity.
Qed.

(** Concatenation adds a pair of slashes exactly when a trailing slash
    meets a leading one. *)
Lemma slash_pairs_app (a b : string) :
  slash_pairs (a +:+ b)
  = (slash_pairs a + slash_pairs b
     + (if ends_with_slash a && starts_with_slash b then 1 else 0))%nat.
Proof.
  induction a as [|c a IH]; [simpl; lia |].
  change (String c a +:+ b) with (String c (a +:+ b)).
  cbn [slash_pairs]. rewrite IH, starts_with_slash_app, ends_with_slash_cons.
  destruct a as [|c' a]; [| lia].
  simpl. destruct (Ascii.eqb c "/"), (starts_with_slash b); simpl; lia.
Qed.

(** The address without a pair of slashes beyond those of its parts. *)
Lemma joined_slash_pairs (endpoint repo segment : string) :
  repo <> "" ->
  ends_with_slash endpoint = false ->
  starts_with_slash repo = false ->
  ends_with_slash repo = false ->
  starts_with_slash segment = false ->
  slash_pairs (endpoint +:+ "/repos/" +:+ repo +:+ "/" +:+ segment)
  = (slash_pairs endpoint + slash_pairs repo + slash_pairs segment)%nat.
Proof.
  intros Hrepo He Hr1 Hr2 Hs.
  rewrite (slash_pairs_app endpoint), He. cbn [andb].
  rewrite (slash_pairs_app "/repos/"), starts_with_slash_app.
  destruct repo as [|c repo]; [done |].
  rewrite Hr1, andb_false_r, (slash_pairs_app (String c repo)), Hr2.
  cbn [andb].
  change (slash_pairs "/repos/") with 0%nat.
  change (slash_pairs ("/" +:+ segment))
    with ((if starts_with_slash segment then 1 else 0) + slash_pairs segment)%nat.
  rewrite Hs. lia.
Qed.

(** ** The request address *)

(** C7, as the code has it.  The address is
    "{endpoint}/repos/{repo}/{api_segment}", where [endpoint] is the stored
    option when it is set to a non-empty string, and
    "https://api.github.com" when it is unset or empty; [{repo}] is the
    stored repository name. *)
Theorem build_request_url_contract `{Host} project segment :
  (forall endpoint,
     get_option "endpoint" project = Some endpoint -> endpoint <> "" ->
     build_request_url project segment
     = Return (endpoint +:+ "/repos/"
               +:+ py_str (opt_arg (get_option "repo" project))
               +:+ "/" +:+ segment))
  /\ (get_option "endpoint" project = None
      \/ get_option "endpoint" project = Some "" ->
      build_request_url project segment
      = Return ("https://api.github.com" +:+ "/repos/"
                +:+ py_str (opt_arg (get_option "repo" project))
                +:+ "/" +:+ segment))
  /\ (forall repo,
      get_option "repo" project = Some repo ->
      py_str (opt_arg (get_option "repo" project)) = repo).
Proof.
  rewrite build_request_url_eq. unfold request_url.
  split; [| split].
  - intros endpoint -> Hne. by destruct endpoint.
  - by intros [-> | ->].
  - by intros repo ->.
Qed.

Lemma build_request_url_contract_witness :
  build_request_url (H := offline enterprise) "backend" "issues"
  = Return "https://ghe.example.com/api/v3/repos/o/r/issues"
  /\ build_request_url (H := offline repo_only) "backend" "issues"
     = Return "https://api.github.com/repos/o/r/issues"
  /\ build_request_url (H := offline blank_urls) "backend" "issues"
     = Return "https://api.github.com/repos/o/r/issues".
Proof.
  refine (conj _ (conj _ _)).
  - apply (proj1 (build_request_url_contract (H := offline enterprise) "backend" "issues")
             "https://ghe.example.com/api/v3"); [reflexivity | discriminate].
  - apply (proj1 (proj2 (build_request_url_contract (H := offline repo_only)
                           "backend" "issues"))).
    left. reflexivity.
  - apply (proj1 (proj2 (build_request_url_contract (H := offline blank_urls)
                           "backend" "issues"))).
    right. reflexivity.
Defined.

(** C7 as stated fails: an endpoint that is set, to the empty string, is
    not used; the default takes its place. *)
Lemma build_request_url_blank_endpoint :
  get_option (Host := offline blank_urls) "endpoint" "backend" = Some ""
  /\ build_request_url (H := offline blank_urls) "backend" "issues"
     = Return "https://api.github.com/repos/o/r/issues"
  /\ build_request_url (H := offline blank_urls) "backend" "issues"
     <> Return (stored_or (get_option (Host := offline blank_urls) "endpoint" "backend")
                  "https://api.github.com"
                +:+ "/repos/" +:+ "o/r" +:+ "/" +:+ "issues").
Proof. split; [reflexivity | split; [reflexivity | discriminate]]. Qed.

(** C6, as the code has it.  [build_request_url] strips nothing: it joins
    the effective endpoint, the repository name and the segment as they
    are.  The join adds no pair of slashes when the endpoint has no
    trailing slash, the repository name is non-empty without a leading or
    trailing slash, and the segment has no leading slash.  The trailing
    slashes of [endpoint] and [github_url] are removed by the form at input
    time: what it stores has no trailing slash and differs from the input
    by trailing slashes only. *)
Theorem request_url_slashes `{Host} project segment :
  build_request_url project segment
  = Return (py_or (get_option "endpoint" project) "https://api.github.com"
            +:+ "/repos/" +:+ py_str (opt_arg (get_option "repo" project))
            +:+ "/" +:+ segment)
  /\ (forall repo,
      get_option "repo" project = Some repo ->
      repo <> "" ->
      ends_with_slash (py_or (get_option "endpoint" project) "https://api.github.com")
        = false ->
      starts_with_slash repo = false ->
      ends_with_slash repo = false ->
      starts_with_slash segment = false ->
      exists address,
        build_request_url project segment = Return address
        /\ slash_pairs address
           = (slash_pairs (py_or (get_option "endpoint" project) "https://api.github.com")
              + slash_pairs repo + slash_pairs segment)%nat)
  /\ (forall (cleaned : gmap string string) data,
      cleaned !! "endpoint" = Some data ->
      clean_endpoint cleaned = Return (rstrip "/" data)
      /\ ends_with_slash (rstrip "/" data) = false
      /\ exists k, data = rstrip "/" data +:+ slashes k)
  /\ (forall (cleaned : gmap string string) data,
      cleaned !! "github_url" = Some data ->
      clean_github_url cleaned = Return (rstrip "/" data)
      /\ ends_with_slash (rstrip "/" data) = false
      /\ exists k, data = rstrip "/" data +:+ slashes k).
Proof.
  rewrite build_request_url_eq. unfold request_url.
  split; [reflexivity |]. split; [| split].
  - intros repo Hrepo Hne He Hr1 Hr2 Hs. eexists. split; [reflexivity |].
    rewrite Hrepo. simpl py_str. by apply joined_slash_pairs.
  - intros cleaned data Hdata.
    unfold clean_endpoint, dict_getitem. rewrite Hdata. simpl.
    split; [reflexivity |]. split;
      [apply rstrip_no_trailing_slash | apply rstrip_drops_slashes].
  - intros cleaned data Hdata.
    unfold clean_github_url, dict_getitem. rewrite Hdata. simpl.
    split; [reflexivity |]. split;
      [apply rstrip_no_trailing_slash | apply rstrip_drops_slashes].
Qed.

Lemma request_url_slashes_witness :
  (exists address,
     build_request_url (H := offline enterprise) "backend" "issues" = Return address
     /\ slash_pairs address = 1%nat)
  /\ clean_endpoint {["endpoint" := "https://ghe.example.com/api/v3//"]}
     = Return "https://ghe.example.com/api/v3"
  /\ clean_github_url {["github_url" := "https://ghe.example.com/"]}
     = Return "https://ghe.example.com".
Proof.
  refine (conj _ (conj _ _)).
  - apply (proj1 (proj2 (request_url_slashes (H := offline enterprise) "backend" "issues"))
             "o/r"); first [reflexivity | discriminate].
  - apply (proj1 (proj2 (proj2 (request_url_slashes (H := offline enterprise)
                                   "backend" "issues")))
             {["endpoint" := "https://ghe.example.com/api/v3//"]}
             "https://ghe.example.com/api/v3//").
    reflexivity.
  - apply (proj2 (proj2 (proj2 (request_url_slashes (H := offline enterprise)
                                   "backend" "issues")))
             {["github_url" := "https://ghe.example.com/"]}
             "https://ghe.example.com/").
    reflexivity.
Defined.

(** C6 as stated fails: a trailing slash of a stored value stays in the
    address, and the join then has a pair of slashes its parts do not
    have. *)
Lemma build_request_url_keeps_slashes :
  build_request_url (H := offline slashed_repo) "backend" "issues"
  = Return "https://api.github.com/repos/o/r//issues"
  /\ build_request_url (H := offline slashed_repo) "backend" "issues"
     <> Return (rstrip "/" "https://api.github.com" +:+ "/repos/"
                +:+ rstrip "/" "o/r/" +:+ "/" +:+ "issues")
  /\ (slash_pairs "https://api.github.com" + slash_pairs "o/r/" + slash_pairs "issues"
      < slash_pairs "https://api.github.com/repos/o/r//issues")%nat
  /\ build_request_url (H := offline slashed_endpoint) "backend" "issues"
     = Return "https://ghe.example.com/api/v3//repos/o/r/issues"
  /\ build_request_url (H := offline slashed_endpoint) "backend" "issues"
     <> Return (rstrip "/" "https://ghe.example.com/api/v3/" +:+ "/repos/"
                +:+ rstrip "/" "o/r" +:+ "/" +:+ "issues").
Proof.
  refine (conj _ (conj _ (conj _ (conj _ _))));
    first [reflexivity | discriminate | vm_compute; lia].
Qed.

(** ** Issue label and link *)

(** C9, as the code has it.  The label is "GH-{issue_id}" and the link is
    "{github_url}/{repo}/issues/{issue_id}", where [github_url] is the
    stored option when it is set to a non-empty string, and
    "https://github.com" when it is unset or empty.  Both are functions of
    their inputs: the label of the issue identifier alone, the link of the
    identifier and the two stored options. *)
Theorem issue_label_and_url `{Host} group issue_id :
  get_issue_label group issue_id = Return ("GH-" +:+ py_str issue_id)
  /\ (forall github_url,
      get_option "github_url" (project group) = Some github_url ->
      github_url <> "" ->
      get_issue_url group issue_id
      = Return (github_url +:+ "/"
                +:+ py_str (opt_arg (get_option "repo" (project group)))
                +:+ "/issues/" +:+ py_str issue_id))
  /\ (get_option "github_url" (project group) = None
      \/ get_option "github_url" (project group) = Some "" ->
      get_issue_url group issue_id
      = Return ("https://github.com" +:+ "/"
                +:+ py_str (opt_arg (get_option "repo" (project group)))
                +:+ "/issues/" +:+ py_str issue_id))
  /\ (forall repo,
      get_option "repo" (project group) = Some repo ->
      py_str (opt_arg (get_option "repo" (project group))) = repo)
  /\ (forall group', get_issue_label group' issue_id = get_issue_label group issue_id)
  /\ (forall (H' : Host) group',
      get_option (Host := H') "repo" (project group')
        = get_option "repo" (project group) ->
      get_option (Host := H') "github_url" (project group')
        = get_option "github_url" (project group) ->
      get_issue_url (H := H') group' issue_id = get_issue_url group issue_id).
Proof.
  assert (Hurl : forall (H0 : Host) g,
             get_issue_url (H := H0) g issue_id
             = Return (py_or (get_option "github_url" (project g)) "https://github.com"
                       +:+ "/" +:+ py_str (opt_arg (get_option "repo" (project g)))
                       +:+ "/issues/" +:+ py_str issue_id)).
  { intros H0 g. unfold get_issue_url. simpl. by rewrite append_empty_r. }
  split; [| split; [| split; [| split; [| split]]]].
  - unfold get_issue_label. simpl. by rewrite append_empty_r.
  - intros github_url Hset Hne. rewrite Hurl, Hset. by destruct github_url.
  - intros [Hunset | Hblank]; rewrite Hurl; [by rewrite Hunset | by rewrite Hblank].
  - by intros repo ->.
  - reflexivity.
  - intros H' group' Hrepo Hgithub. by rewrite !Hurl, Hrepo, Hgithub.
Qed.

Lemma issue_label_and_url_witness :
  get_issue_label crash (AInt 42) = Return "GH-42"
  /\ get_issue_url (H := offline enterprise) crash (AInt 42)
     = Return "https://ghe.example.com/o/r/issues/42"
  /\ get_issue_url (H := offline repo_only) crash (AInt 42)
     = Return "https://github.com/o/r/issues/42"
  /\ get_issue_url (H := stub repo_only (Some linked) (Return created)) crash (AInt 42)
     = get_issue_url (H := offline repo_only) crash (AInt 42).
Proof.
  refine (conj _ (conj _ (conj _ _))).
  - apply (proj1 (issue_label_and_url (H := offline repo_only) crash (AInt 42))).
  - apply (proj1 (proj2 (issue_label_and_url (H := offline enterprise) crash (AInt 42)))
             "https://ghe.example.com"); [reflexivity | discriminate].
  - apply (proj1 (proj2 (proj2 (issue_label_and_url (H := offline repo_only)
                                   crash (AInt 42))))).
    left. reflexivity.
  - apply (proj2 (proj2 (proj2 (proj2 (proj2
             (issue_label_and_url (H := offline repo_only) crash (AInt 42))))))
             (stub repo_only (Some linked) (Return created)) crash);
      reflexivity.
Defined.

(** C9 as stated fails: a base address that is set, to the empty string,
    is not used; the default takes its place. *)
Lemma get_issue_url_blank_github_url :
  get_option (Host := offline blank_urls) "github_url" (project crash) = Some ""
  /\ get_issue_url (H := offline blank_urls) crash (AInt 42)
     = Return "https://github.com/o/r/issues/42"
  /\ get_issue_url (H := offline blank_urls) crash (AInt 42)
     <> Return (stored_or
                  (get_option (Host := offline blank_urls) "github_url" (project crash))
                  "https://github.com"
                +:+ "/" +:+ "o/r" +:+ "/issues/" +:+ "42").
Proof. split; [reflexivity | split; [reflexivity | discriminate]]. Qed.

(** * Further properties *)

(** ** The request in every case *)

(** [make_api_request] in full: no credential, a credential without an
    access token, or the one call. *)
Lemma make_api_request_cases `{Host} request group segment payload :
  make_api_request request group segment payload
  = match get_auth_for_user (user request) with
    | None => (Raise NotAuthenticated, [])
    | Some auth =>
        match tokens auth !! "access_token" with
        | None => (Raise (KeyError "access_token"), [])
        | Some tok =>
            (http_open (api_call (project group) segment payload tok),
             [api_call (project group) segment payload tok])
        end
    end.
Proof.
  destruct (get_auth_for_user (user request)) as [auth|] eqn:Hauth;
    [| exact (make_api_request_unlinked _ _ _ _ Hauth)].
  destruct (tokens auth !! "access_token") as [tok|] eqn:Htok;
    [exact (make_api_request_linked _ _ _ _ _ _ Hauth Htok) |].
  unfold make_api_request. rewrite Hauth, build_request_url_eq.
  cbn [lift bind]. unfold dict_getitem. by rewrite Htok.
Qed.

(** After the exchange neither operation calls out again. *)
Lemma bind_quiet {A B} (m : M A) (k : A -> M B) :
  (forall a, snd (k a) = []) ->
  snd (bind m k) = snd m.
Proof.
  intros Hk. destruct m as [[a | e] log]; [| reflexivity].
  simpl. specialize (Hk a). destruct (k a) as [r log']. simpl in *.
  subst log'. by rewrite app_nil_r.
Qed.

Lemma exchange_log `{Host} request group segment payload :
  snd (exchange request group segment payload)
  = snd (make_api_request request group segment payload).
Proof.
  unfold exchange.
  destruct (make_api_request request group segment payload) as [[resp | e] log].
  - unfold safe_urlread. cbn [lift bind ret try_except app].
    destruct (http_read resp) as [body | e]; cbn;
      [| destruct (as_RequestException e)]; by rewrite ?app_nil_r.
  - cbn. by destruct (as_RequestException e).
Qed.

Lemma create_issue_log `{Host} request group (form_data : gmap string pyval) t d :
  form_data !! "title" = Some t ->
  form_data !! "description" = Some d ->
  snd (create_issue request group form_data)
  = snd (make_api_request request group "issues"
           (Some (issue_payload t d (dict_get form_data "assignee")))).
Proof.
  intros Ht Hd. rewrite (create_issue_requested _ _ _ _ _ Ht Hd).
  rewrite bind_quiet; [apply exchange_log |].
  intros [msg | [req body]]; cbv beta iota.
  - by rewrite communication_text.
  - destruct (loads body) as [json_resp | e]; cbn.
    + destruct (399 <? status_code req); cbn.
      * by destruct (py_getitem json_resp "message").
      * reflexivity.
    + destruct (as_ValueError e); reflexivity.
Qed.

Lemma get_allowed_assignees_log `{Host} request group :
  snd (get_allowed_assignees request group)
  = snd (make_api_request request group "assignees" None).
Proof.
  rewrite get_allowed_assignees_requested.
  rewrite bind_quiet; [apply exchange_log |].
  intros [msg | [req body]]; cbv beta iota; [reflexivity |].
  destruct (loads body) as [json_resp | e]; cbn.
  - destruct (399 <? status_code req); cbn; [reflexivity |].
    by destruct (obind (py_iter json_resp) (mapM login_pair)).
  - by destruct (as_ValueError e).
Qed.

Lemma exchange_cases `{Host} request group segment payload :
  exchange request group segment payload
  = match get_auth_for_user (user request) with
    | None => (Raise NotAuthenticated, [])
    | Some auth =>
        match tokens auth !! "access_token" with
        | None => (Raise (KeyError "access_token"), [])
        | Some tok =>
            (match http_open (api_call (project group) segment payload tok) with
             | Return resp =>
                 match http_read resp with
                 | Return body => Return (inr (resp, body))
                 | Raise (RequestException msg) => Return (inl msg)
                 | Raise e => Raise e
                 end
             | Raise (RequestException msg) => Return (inl msg)
             | Raise e => Raise e
             end,
             [api_call (project group) segment payload tok])
        end
    end.
Proof.
  destruct (get_auth_for_user (user request)) as [auth|] eqn:Hauth;
    [| exact (exchange_unlinked _ _ _ _ Hauth)].
  destruct (tokens auth !! "access_token") as [tok|] eqn:Htok;
    [exact (exchange_linked _ _ _ _ _ _ Hauth Htok) |].
  unfold exchange. rewrite make_api_request_cases, Hauth, Htok. reflexivity.
Qed.


(** ** A credential without an access token *)

(** X1. A linked credential whose tokens hold no ['access_token'] stops
    [make_api_request] at the subscript: [KeyError('access_token')] is
    raised before any call, and both operations let it through. *)
Theorem credential_without_token `{Host} request group auth :
  get_auth_for_user (user request) = Some auth ->
  tokens auth !! "access_token" = None ->
  (forall segment payload,
     make_api_request request group segment payload
     = (Raise (KeyError "access_token"), []))
  /\ get_allowed_assignees request group = (Raise (KeyError "access_token"), [])
  /\ (forall form_data : gmap string pyval,
      is_Some (form_data !! "title") ->
      is_Some (form_data !! "description") ->
      create_issue request group form_data = (Raise (KeyError "access_token"), [])).
Proof.
  intros Hauth Htok. split; [| split].
  - intros segment payload. by rewrite make_api_request_cases, Hauth, Htok.
  - rewrite get_allowed_assignees_requested, exchange_cases, Hauth, Htok.
    reflexivity.
  - intros form_data [t Ht] [d Hd].
    rewrite (create_issue_requested _ _ _ _ _ Ht Hd), exchange_cases, Hauth, Htok.
    reflexivity.
Qed.

Lemma credential_without_token_witness :
  get_allowed_assignees (H := stub repo_only (Some tokenless) (Return users_found))
    alice crash
  = (Raise (KeyError "access_token"), [])
  /\ create_issue (H := stub repo_only (Some tokenless) (Return created))
       alice crash (cleaned_data report)
     = (Raise (KeyError "access_token"), []).
Proof.
  split.
  - apply (proj1 (proj2 (credential_without_token
                           (H := stub repo_only (Some tokenless) (Return users_found))
                           alice crash tokenless eq_refl eq_refl))).
  - apply (proj2 (proj2 (credential_without_token
                           (H := stub repo_only (Some tokenless) (Return created))
                           alice crash tokenless eq_refl eq_refl))
             (cleaned_data report)); by eexists.
Defined.

(** ** Exceptions that are not converted *)

(** X2. [create_issue] converts only a [RequestException] of the request
    or the body read, and only a [ValueError] of the parser.  Any other
    exception of the request or the body read (a [ValueError] included),
    and any other exception of the parser (a [RequestException] included),
    leaves [create_issue] unchanged, after the one call. *)
Theorem create_issue_lets_others_through `{Host} request group
    (form_data : gmap string pyval) t d auth tok e :
  form_data !! "title" = Some t ->
  form_data !! "description" = Some d ->
  get_auth_for_user (user request) = Some auth ->
  tokens auth !! "access_token" = Some tok ->
  (http_open (api_call (project group) "issues"
                (Some (issue_payload t d (dict_get form_data "assignee"))) tok)
     = Raise e
   /\ as_RequestException e = None)
  \/ (exists resp,
        http_open (api_call (project group) "issues"
                     (Some (issue_payload t d (dict_get form_data "assignee"))) tok)
          = Return resp
        /\ http_read resp = Raise e
        /\ as_RequestException e = None)
  \/ (exists resp body,
        http_open (api_call (project group) "issues"
                     (Some (issue_payload t d (dict_get form_data "assignee"))) tok)
          = Return resp
        /\ http_read resp = Return body
        /\ loads body = Raise e
        /\ as_ValueError e = None) ->
  create_issue request group form_data
  = (Raise e,
     [api_call (project group) "issues"
        (Some (issue_payload t d (dict_get form_data "assignee"))) tok]).
Proof.
  intros Ht Hd Hauth Htok Hfail.
  rewrite (create_issue_requested _ _ _ _ _ Ht Hd).
  rewrite (exchange_linked _ _ _ _ _ _ Hauth Htok).
  destruct Hfail as [[Hopen He] | [(resp & Hopen & Hread & He)
                                  | (resp & body & Hopen & Hread & Hloads & He)]];
    rewrite Hopen; try rewrite Hread.
  - by destruct e.
  - by destruct e.
  - cbn [lift bind ret try_except app]. rewrite Hloads.
    cbn [lift bind ret try_except app]. by rewrite He.
Qed.

Lemma create_issue_lets_others_through_witness :
  create_issue (H := broken repo_only (ValueError "Invalid URL")) alice crash
    (cleaned_data report)
  = (Raise (ValueError "Invalid URL"), [issues_post])
  /\ create_issue (H := broken_read repo_only (TypeError "not a response")) alice crash
       (cleaned_data report)
     = (Raise (TypeError "not a response"), [issues_post])
  /\ create_issue (H := broken_parser repo_only (RequestException "late")) alice crash
       (cleaned_data report)
     = (Raise (RequestException "late"), [issues_post]).
Proof.
  refine (conj _ (conj _ _)).
  - apply (create_issue_lets_others_through
             (H := broken repo_only (ValueError "Invalid URL")) alice crash
             (cleaned_data report) (PStr "TypeError in view") (PStr "Traceback")
             linked "s3cr3t"); [reflexivity.. |].
    left. split; reflexivity.
  - apply (create_issue_lets_others_through
             (H := broken_read repo_only (TypeError "not a response")) alice crash
             (cleaned_data report) (PStr "TypeError in view") (PStr "Traceback")
             linked "s3cr3t"); [reflexivity.. |].
    right. left. exists {| status_code := 200; stream := "" |}.
    repeat split.
  - apply (create_issue_lets_others_through
             (H := broken_parser repo_only (RequestException "late")) alice crash
             (cleaned_data report) (PStr "TypeError in view") (PStr "Traceback")
             linked "s3cr3t"); [reflexivity.. |].
    right. right. exists {| status_code := 200; stream := "" |}, "".
    repeat split.
Defined.

(** X3. [get_allowed_assignees] absorbs only a [RequestException] of the
    request or the body read, and only a [ValueError] of the parser; any
    other exception of the three is raised to the caller, after the one
    call. *)
Theorem get_allowed_assignees_lets_others_through `{Host} request group auth tok e :
  get_auth_for_user (user request) = Some auth ->
  tokens auth !! "access_token" = Some tok ->
  (http_open (api_call (project group) "assignees" None tok) = Raise e
   /\ as_RequestException e = None)
  \/ (exists resp,
        http_open (api_call (project group) "assignees" None tok) = Return resp
        /\ http_read resp = Raise e
        /\ as_RequestException e = None)
  \/ (exists resp body,
        http_open (api_call (project group) "assignees" None tok) = Return resp
        /\ http_read resp = Return body
        /\ loads body = Raise e
        /\ as_ValueError e = None) ->
  get_allowed_assignees request group
  = (Raise e, [api_call (project group) "assignees" None tok]).
Proof.
  intros Hauth Htok Hfail.
  rewrite get_allowed_assignees_requested.
  rewrite (exchange_linked _ _ _ _ _ _ Hauth Htok).
  destruct Hfail as [[Hopen He] | [(resp & Hopen & Hread & He)
                                  | (resp & body & Hopen & Hread & Hloads & He)]];
    rewrite Hopen; try rewrite Hread.
  - by destruct e.
  - by destruct e.
  - cbn [lift bind ret try_except app]. rewrite Hloads.
    cbn [lift bind ret try_except app]. by rewrite He.
Qed.

Lemma get_allowed_assignees_lets_others_through_witness :
  get_allowed_assignees (H := broken repo_only (ValueError "Invalid URL")) alice crash
  = (Raise (ValueError "Invalid URL"), [assignees_get])
  /\ get_allowed_assignees (H := broken_parser repo_only (TypeError "expected string"))
       alice crash
     = (Raise (TypeError "expected string"), [assignees_get]).
Proof.
  split.
  - apply (get_allowed_assignees_lets_others_through
             (H := broken repo_only (ValueError "Invalid URL")) alice crash
             linked "s3cr3t"); [reflexivity.. |].
    left. split; reflexivity.
  - apply (get_allowed_assignees_lets_others_through
             (H := broken_parser repo_only (TypeError "expected string")) alice crash
             linked "s3cr3t"); [reflexivity.. |].
    right. right. exists {| status_code := 200; stream := "" |}, "".
    repeat split.
Defined.

(** ** The calls made *)

(** X4. With the required fields and a credential with a token,
    [create_issue] sends one request, whatever the network and the parser
    answer: to the issues address, with the token in the [Authorization]
    header and the payload [title], [body] (the description) and
    [assignee], which is [None] when the form data has no assignee. *)
Theorem create_issue_one_request `{Host} request group
    (form_data : gmap string pyval) t d auth tok :
  form_data !! "title" = Some t ->
  form_data !! "description" = Some d ->
  get_auth_for_user (user request) = Some auth ->
  tokens auth !! "access_token" = Some tok ->
  snd (create_issue request group form_data)
  = [{| url := request_url (project group) "issues";
        json := Some (PDict [("title", t);
                             ("body", d);
                             ("assignee", default PNone (form_data !! "assignee"))]);
        headers := [("Authorization", "token " +:+ tok)] |}].
Proof.
  intros Ht Hd Hauth Htok.
  rewrite (create_issue_log _ _ _ _ _ Ht Hd), make_api_request_cases, Hauth, Htok.
  unfold api_call, issue_payload, dict_get.
  by destruct (form_data !! "assignee").
Qed.

Lemma create_issue_one_request_witness :
  snd (create_issue (H := stub repo_only (Some linked) (Return gateway_html))
         alice crash (cleaned_data anonymous_report))
  = [{| url := "https://api.github.com/repos/o/r/issues";
        json := Some (PDict [("title", PStr "TypeError in view");
                             ("body", PStr "Traceback");
                             ("assignee", PNone)]);
        headers := [("Authorization", "token s3cr3t")] |}].
Proof.
  apply (create_issue_one_request
           (H := stub repo_only (Some linked) (Return gateway_html))
           alice crash (cleaned_data anonymous_report)
           (PStr "TypeError in view") (PStr "Traceback") linked "s3cr3t");
    reflexivity.
Defined.


(** X6. [get_allowed_assignees] makes at most one outbound call, for
    every host, user and project. *)
Theorem get_allowed_assignees_at_most_one_call `{Host} request group :
  (length (snd (get_allowed_assignees request group)) <= 1)%nat.
Proof.
  rewrite get_allowed_assignees_log, make_api_request_cases.
  destruct (get_auth_for_user (user request)) as [auth|]; [| simpl; lia].
  destruct (tokens auth !! "access_token"); simpl; lia.
Qed.

(** ** What a result tells *)

(** X7. Whenever [create_issue] returns an issue identifier, the form
    data had its required fields, the user had a credential with a token,
    the one call was answered with a status of at most 399 and a body that
    parsed, and the identifier is the [number] field of that body. *)
Theorem create_issue_return_inversion `{Host} request group
    (form_data : gmap string pyval) issue_id :
  fst (create_issue request group form_data) = Return issue_id ->
  exists t d auth tok resp body json_resp,
    form_data !! "title" = Some t
    /\ form_data !! "description" = Some d
    /\ get_auth_for_user (user request) = Some auth
    /\ tokens auth !! "access_token" = Some tok
    /\ http_open (api_call (project group) "issues"
                    (Some (issue_payload t d (dict_get form_data "assignee"))) tok)
       = Return resp
    /\ http_read resp = Return body
    /\ loads body = Return json_resp
    /\ status_code resp <= 399
    /\ py_getitem json_resp "number" = Return issue_id.
Proof.
  intros Hret.
  destruct (form_data !! "title") as [t|] eqn:Ht; cycle 1.
  { unfold create_issue, dict_getitem in Hret. by rewrite Ht in Hret. }
  destruct (form_data !! "description") as [d|] eqn:Hd; cycle 1.
  { unfold create_issue, dict_getitem in Hret.
    rewrite Ht, bind_lift_Return, Hd in Hret. discriminate. }
  rewrite (create_issue_requested _ _ _ _ _ Ht Hd), exchange_cases in Hret.
  destruct (get_auth_for_user (user request)) as [auth|] eqn:Hauth; [| discriminate].
  destruct (tokens auth !! "access_token") as [tok|] eqn:Htok; [| discriminate].
  destruct (http_open _) as [resp | e] eqn:Hopen; cycle 1.
  { destruct e; simpl in Hret; discriminate. }
  destruct (http_read resp) as [body | e] eqn:Hread; cycle 1.
  { destruct e; simpl in Hret; discriminate. }
  cbn [lift bind ret try_except app] in Hret.
  destruct (loads body) as [json_resp | e] eqn:Hloads; cycle 1.
  { destruct e; simpl in Hret; discriminate. }
  cbn [lift bind ret try_except app] in Hret.
  destruct (Z.ltb_spec 399 (status_code resp)) as [Hhigh | Hlow].
  { cbn [lift bind ret try_except app] in Hret.
    destruct (py_getitem json_resp "message"); simpl in Hret; discriminate. }
  cbn [lift bind ret try_except app fst] in Hret.
  exists t, d, auth, tok, resp, body, json_resp.
  repeat split; try done.
Qed.

Lemma create_issue_return_inversion_witness :
  exists t d auth tok resp body json_resp,
    cleaned_data report !! "title" = Some t
    /\ cleaned_data report !! "description" = Some d
    /\ get_auth_for_user (Host := stub repo_only (Some linked) (Return created))
         (user alice) = Some auth
    /\ tokens auth !! "access_token" = Some tok
    /\ http_open (Host := stub repo_only (Some linked) (Return created))
         (api_call (H := stub repo_only (Some linked) (Return created))
            (project crash) "issues"
            (Some (issue_payload t d (dict_get (cleaned_data report) "assignee"))) tok)
       = Return resp
    /\ http_read (Host := stub repo_only (Some linked) (Return created)) resp
       = Return body
    /\ loads (Host := stub repo_only (Some linked) (Return created)) body
       = Return json_resp
    /\ status_code resp <= 399
    /\ py_getitem json_resp "number" = Return (PInt 42).
Proof.
  apply (create_issue_return_inversion
           (H := stub repo_only (Some linked) (Return created))
           alice crash (cleaned_data report) (PInt 42)).
  reflexivity.
Defined.

Lemma login_pair_equal (u a b : pyval) :
  login_pair u = Return (a, b) -> a = b.
Proof.
  unfold login_pair. destruct (py_getitem u "login") as [x | e]; simpl; congruence.
Qed.

Lemma mapM_login_pairs_equal (users : list pyval) (pairs : list (pyval * pyval)) :
  mapM login_pair users = Return pairs ->
  Forall (fun choice => fst choice = snd choice) pairs.
Proof.
  revert pairs. induction users as [|u users IH]; intros pairs Hpairs; simpl in Hpairs.
  - inversion Hpairs. constructor.
  - destruct (login_pair u) as [[a b] | e] eqn:Hu; [| discriminate].
    simpl in Hpairs.
    destruct (mapM login_pair users) as [rest | e]; [| discriminate].
    inversion Hpairs. constructor; [| by apply IH].
    simpl. by apply (login_pair_equal u).
Qed.

(** X8. Whatever [get_allowed_assignees] returns is either the empty
    sequence, or the sentinel [('', 'Unassigned')] followed by choices
    whose value and label are the same. *)
Theorem get_allowed_assignees_shape `{Host} request group choices :
  fst (get_allowed_assignees request group) = Return choices ->
  choices = []
  \/ exists users,
       choices = (PStr "", PStr "Unassigned") :: users
       /\ Forall (fun choice => fst choice = snd choice) users.
Proof.
  rewrite get_allowed_assignees_requested, exchange_cases.
  destruct (get_auth_for_user (user request)) as [auth|]; [| discriminate].
  destruct (tokens auth !! "access_token") as [tok|]; [| discriminate].
  destruct (http_open _) as [resp | e]; cycle 1.
  { destruct e; simpl; first [discriminate | intros [= <-]; by left]. }
  destruct (http_read resp) as [body | e]; cycle 1.
  { destruct e; simpl; first [discriminate | intros [= <-]; by left]. }
  cbn [lift bind ret try_except app].
  destruct (loads body) as [json_resp | e]; cycle 1.
  { destruct e; simpl; first [discriminate | intros [= <-]; by left]. }
  cbn [lift bind ret try_except app].
  destruct (399 <? status_code resp).
  { simpl. intros [= <-]. by left. }
  cbn [lift bind ret try_except app].
  destruct (py_iter json_resp) as [users | e]; [| discriminate].
  simpl. destruct (mapM login_pair users) as [pairs | e] eqn:Hpairs; [| discriminate].
  simpl. intros [= <-]. right. exists pairs. split; [reflexivity |].
  by apply (mapM_login_pairs_equal users).
Qed.

Lemma get_allowed_assignees_shape_witness :
  [(PStr "", PStr "Unassigned"); (PStr "alice", PStr "alice"); (PStr "bob", PStr "bob")]
  = []
  \/ exists users,
       [(PStr "", PStr "Unassigned"); (PStr "alice", PStr "alice"); (PStr "bob", PStr "bob")]
       = (PStr "", PStr "Unassigned") :: users
       /\ Forall (fun choice : pyval * pyval => fst choice = snd choice) users.
Proof.
  apply (get_allowed_assignees_shape
           (H := stub repo_only (Some linked) (Return users_found)) alice crash).
  reflexivity.
Defined.

Lemma mapM_login_missing (known logins : list pyval) items rest :
  Forall2 (fun u login => py_getitem u "login" = Return login) known logins ->
  assoc "login" items = None ->
  mapM login_pair (known ++ PDict items :: rest) = Raise (KeyError "login").
Proof.
  intros Hknown Hitems.
  induction Hknown as [|u login known logins Hu _ IH]; simpl.
  - unfold login_pair at 1. simpl. by rewrite Hitems.
  - unfold login_pair at 1. rewrite Hu. simpl. by rewrite IH.
Qed.

(** X9. A body that parses but is not a list of user objects, under a
    status of at most 399.  An object with at least one key, a string with
    at least one character, a number, a boolean and [null] raise
    [TypeError]; a list with a user object that has no [login], after users
    that have one, raises [KeyError('login')]; an empty list, an empty
    object and an empty string give the sentinel alone. *)
Theorem get_allowed_assignees_unexpected_body `{Host} request group auth tok resp body json_resp :
  get_auth_for_user (user request) = Some auth ->
  tokens auth !! "access_token" = Some tok ->
  http_open (api_call (project group) "assignees" None tok) = Return resp ->
  http_read resp = Return body ->
  loads body = Return json_resp ->
  status_code resp <= 399 ->
  ((exists item items, json_resp = PDict (item :: items))
   \/ (exists c s, json_resp = PStr (String c s))
   \/ (exists n, json_resp = PInt n)
   \/ (exists b, json_resp = PBool b)
   \/ json_resp = PNone ->
   exists msg, fst (get_allowed_assignees request group) = Raise (TypeError msg))
  /\ (forall known logins items rest,
      json_resp = PList (known ++ PDict items :: rest) ->
      Forall2 (fun u login => py_getitem u "login" = Return login) known logins ->
      assoc "login" items = None ->
      fst (get_allowed_assignees request group) = Raise (KeyError "login"))
  /\ (json_resp = PList [] \/ json_resp = PDict [] \/ json_resp = PStr "" ->
      fst (get_allowed_assignees request group)
      = Return [(PStr "", PStr "Unassigned")]).
Proof.
  intros Hauth Htok Hopen Hread Hloads Hstatus.
  rewrite (get_allowed_assignees_parsed _ _ _ _ _ _ _ Hauth Htok Hopen Hread Hloads).
  destruct (Z.ltb_spec 399 (status_code resp)); [lia |].
  cbn [fst]. split; [| split].
  - intros [([k v] & items & ->) | [(c & s & ->) | [(n & ->) | [(b & ->) | ->]]]];
      simpl; eauto.
  - intros known logins items rest -> Hknown Hitems. cbn [py_iter obind].
    by rewrite (mapM_login_missing _ _ _ _ Hknown Hitems).
  - by intros [-> | [-> | ->]].
Qed.

Lemma get_allowed_assignees_unexpected_body_witness :
  (exists msg,
     fst (get_allowed_assignees
            (H := canned repo_only (PDict [("message", PStr "Moved Permanently")]))
            alice crash)
     = Raise (TypeError msg))
  /\ fst (get_allowed_assignees
            (H := canned repo_only
                    (PList [PDict [("login", PStr "alice")]; PDict [("id", PInt 7)]]))
            alice crash)
     = Raise (KeyError "login")
  /\ fst (get_allowed_assignees (H := canned repo_only (PDict [])) alice crash)
     = Return [(PStr "", PStr "Unassigned")].
Proof.
  refine (conj _ (conj _ _)).
  - apply (proj1 (get_allowed_assignees_unexpected_body
                    (H := canned repo_only (PDict [("message", PStr "Moved Permanently")]))
                    alice crash linked "s3cr3t" {| status_code := 200; stream := "" |} ""
                    (PDict [("message", PStr "Moved Permanently")])
                    eq_refl eq_refl eq_refl eq_refl eq_refl ltac:(simpl; lia))).
    left. by eexists _, _.
  - apply (proj1 (proj2 (get_allowed_assignees_unexpected_body
                    (H := canned repo_only
                            (PList [PDict [("login", PStr "alice")]; PDict [("id", PInt 7)]]))
                    alice crash linked "s3cr3t" {| status_code := 200; stream := "" |} ""
                    (PList [PDict [("login", PStr "alice")]; PDict [("id", PInt 7)]])
                    eq_refl eq_refl eq_refl eq_refl eq_refl ltac:(simpl; lia)))
             [PDict [("login", PStr "alice")]] [PStr "alice"] [("id", PInt 7)] []);
      [reflexivity | repeat constructor | reflexivity].
  - apply (proj2 (proj2 (get_allowed_assignees_unexpected_body
                    (H := canned repo_only (PDict []))
                    alice crash linked "s3cr3t" {| status_code := 200; stream := "" |} ""
                    (PDict [])
                    eq_refl eq_refl eq_refl eq_refl eq_refl ltac:(simpl; lia)))).
    right. by left.
Defined.

(** ** The options form *)

Lemma rstrip_slashes (k : nat) : rstrip "/" (slashes k) = "".
Proof. induction k as [|k IH]; [reflexivity |]. simpl. by rewrite IH. Qed.

Lemma rstrip_exact (r : string) (k : nat) :
  ends_with_slash r = false ->
  rstrip "/" (r +:+ slashes k) = r.
Proof.
  induction r as [|c r IH]; intros Hr; [apply rstrip_slashes |].
  change (String c r +:+ slashes k) with (String c (r +:+ slashes k)).
  rewrite ends_with_slash_cons in Hr. cbn [rstrip].
  destruct r as [|c' r].
  - change ("" +:+ slashes k) with (slashes k). rewrite rstrip_slashes.
    simpl. by rewrite Hr.
  - by rewrite (IH Hr).
Qed.

Lemma rstrip_idempotent (s : string) :
  rstrip "/" (rstrip "/" s) = rstrip "/" s.
Proof.
  pose proof (rstrip_exact (rstrip "/" s) 0 (rstrip_no_trailing_slash s)) as Hs.
  change (slashes 0) with "" in Hs. by rewrite append_empty_r in Hs.
Qed.

(** X10. The cleaning of [endpoint] and of [github_url] removes exactly
    the trailing slashes: an input made of [r], which does not end with a
    slash, followed by any number of slashes, is cleaned to [r].  Cleaning
    a cleaned value changes nothing. *)
Theorem clean_removes_trailing_slashes (cleaned : gmap string string) :
  (forall r k,
     ends_with_slash r = false ->
     cleaned !! "endpoint" = Some (r +:+ slashes k) ->
     clean_endpoint cleaned = Return r)
  /\ (forall r k,
      ends_with_slash r = false ->
      cleaned !! "github_url" = Some (r +:+ slashes k) ->
      clean_github_url cleaned = Return r)
  /\ (forall e,
      clean_endpoint cleaned = Return e ->
      clean_endpoint (<["endpoint" := e]> cleaned) = Return e)
  /\ (forall g,
      clean_github_url cleaned = Return g ->
      clean_github_url (<["github_url" := g]> cleaned) = Return g).
Proof.
  unfold clean_endpoint, clean_github_url, dict_getitem.
  split; [| split; [| split]].
  - intros r k Hr ->. simpl. by rewrite rstrip_exact.
  - intros r k Hr ->. simpl. by rewrite rstrip_exact.
  - intros e. destruct (cleaned !! "endpoint") as [data|]; [| discriminate].
    simpl. intros [= <-]. rewrite lookup_insert_eq. simpl.
    by rewrite rstrip_idempotent.
  - intros g. destruct (cleaned !! "github_url") as [data|]; [| discriminate].
    simpl. intros [= <-]. rewrite lookup_insert_eq. simpl.
    by rewrite rstrip_idempotent.
Qed.

Lemma clean_removes_trailing_slashes_witness :
  clean_endpoint {["endpoint" := "https://ghe.example.com/api/v3///"]}
  = Return "https://ghe.example.com/api/v3"
  /\ clean_github_url {["github_url" := "https://ghe.example.com"]}
     = Return "https://ghe.example.com"
  /\ clean_endpoint
       (<["endpoint" := "https://ghe.example.com/api/v3"]>
          {["endpoint" := "https://ghe.example.com/api/v3///"]})
     = Return "https://ghe.example.com/api/v3".
Proof.
  refine (conj _ (conj _ _)).
  - apply (proj1 (clean_removes_trailing_slashes
                    {["endpoint" := "https://ghe.example.com/api/v3///"]})
             "https://ghe.example.com/api/v3" 3%nat); reflexivity.
  - apply (proj1 (proj2 (clean_removes_trailing_slashes
                           {["github_url" := "https://ghe.example.com"]}))
             "https://ghe.example.com" 0%nat); reflexivity.
  - apply (proj1 (proj2 (proj2 (clean_removes_trailing_slashes
                                  {["endpoint" := "https://ghe.example.com/api/v3///"]})))
             "https://ghe.example.com/api/v3"); reflexivity.
Defined.

(** X11. From the form to the addresses.  When the project stores what
    the form cleaned, the endpoint the request address starts with and the
    base the issue link starts with never end with a slash; each is the
    cleaned value, or the default when the cleaned value is empty, which
    is what an input made of slashes only is cleaned to. *)
Theorem addresses_through_form `{Host} group segment issue_id
    (cleaned : gmap string string) e g :
  clean_endpoint cleaned = Return e ->
  clean_github_url cleaned = Return g ->
  get_option "endpoint" (project group) = Some e ->
  get_option "github_url" (project group) = Some g ->
  exists endpoint github_url,
    build_request_url (project group) segment
    = Return (endpoint +:+ "/repos/"
              +:+ py_str (opt_arg (get_option "repo" (project group)))
              +:+ "/" +:+ segment)
    /\ get_issue_url group issue_id
       = Return (github_url +:+ "/"
                 +:+ py_str (opt_arg (get_option "repo" (project group)))
                 +:+ "/issues/" +:+ py_str issue_id)
    /\ ends_with_slash endpoint = false
    /\ ends_with_slash github_url = false
    /\ endpoint = (if decide (e = "") then "https://api.github.com" else e)
    /\ github_url = (if decide (g = "") then "https://github.com" else g)
    /\ (forall k, cleaned !! "endpoint" = Some (slashes k) -> e = "")
    /\ (forall k, cleaned !! "github_url" = Some (slashes k) -> g = "").
Proof.
  unfold clean_endpoint, clean_github_url, dict_getitem.
  destruct (cleaned !! "endpoint") as [data_e|]; [| discriminate].
  destruct (cleaned !! "github_url") as [data_g|]; [| discriminate].
  simpl. intros [= <-] [= <-] He Hg.
  exists (py_or (Some (rstrip "/" data_e)) "https://api.github.com"),
         (py_or (Some (rstrip "/" data_g)) "https://github.com").
  split; [| split; [| split; [| split; [| split; [| split; [| split]]]]]].
  - rewrite build_request_url_eq. unfold request_url. by rewrite He.
  - unfold get_issue_url. rewrite Hg. simpl. by rewrite append_empty_r.
  - pose proof (rstrip_no_trailing_slash data_e).
    by destruct (rstrip "/" data_e).
  - pose proof (rstrip_no_trailing_slash data_g).
    by destruct (rstrip "/" data_g).
  - by destruct (rstrip "/" data_e).
  - by destruct (rstrip "/" data_g).
  - intros k [= ->]. apply rstrip_slashes.
  - intros k [= ->]. apply rstrip_slashes.
Qed.

Lemma addresses_through_form_witness :
  exists endpoint github_url,
    build_request_url (H := offline blank_urls) (project crash) "issues"
    = Return (endpoint +:+ "/repos/"
              +:+ py_str (opt_arg (get_option (Host := offline blank_urls)
                                     "repo" (project crash)))
              +:+ "/" +:+ "issues")
    /\ get_issue_url (H := offline blank_urls) crash (AInt 42)
       = Return (github_url +:+ "/"
                 +:+ py_str (opt_arg (get_option (Host := offline blank_urls)
                                        "repo" (project crash)))
                 +:+ "/issues/" +:+ py_str (AInt 42))
    /\ ends_with_slash endpoint = false
    /\ ends_with_slash github_url = false
    /\ endpoint = (if decide ("" = "") then "https://api.github.com" else "")
    /\ github_url = (if decide ("" = "") then "https://github.com" else "")
    /\ (forall k, typed_slashes !! "endpoint" = Some (slashes k) -> "" = "")
    /\ (forall k, typed_slashes !! "github_url" = Some (slashes k) -> "" = "").
Proof.
  apply (addresses_through_form (H := offline blank_urls) crash "issues" (AInt 42)
           typed_slashes "" ""); reflexivity.
Defined.

(** ** Issue identifiers *)

Lemma append_assoc (a b c : string) : (a +:+ b) +:+ c = a +:+ b +:+ c.
Proof. induction a as [|x a IH]; simpl; [reflexivity | by rewrite IH]. Qed.

Lemma to_int_not_nil (n : Z) :
  Z.to_int n <> Decimal.Pos Decimal.Nil /\ Z.to_int n <> Decimal.Neg Decimal.Nil.
Proof.
  destruct n as [|p|p]; simpl; split; try discriminate;
    intros [= Hp]; by apply (DecimalPos.Unsigned.to_uint_nonnil p).
Qed.

Lemma py_str_int_inj (m n : Z) :
  py_str (AInt m) = py_str (AInt n) -> m = n.
Proof.
  simpl. intros Heq. apply DecimalZ.to_int_inj.
  destruct (to_int_not_nil m) as [Hm1 Hm2], (to_int_not_nil n) as [Hn1 Hn2].
  pose proof (NilZero.isi _ Hm1 Hm2) as Hm.
  pose proof (NilZero.isi _ Hn1 Hn2) as Hn.
  rewrite Heq in Hm. congruence.
Qed.

(** X12. Different issue numbers have different labels and, within one
    project, different links; in general two identifiers share a label,
    or a link, exactly when they have the same text. *)
Theorem issue_identifiers_distinct `{Host} group (a b : fmt_arg) :
  (get_issue_label group a = get_issue_label group b <-> py_str a = py_str b)
  /\ (get_issue_url group a = get_issue_url group b <-> py_str a = py_str b)
  /\ (forall m n : Z,
      get_issue_label group (AInt m) = get_issue_label group (AInt n) -> m = n)
  /\ (forall m n : Z,
      get_issue_url group (AInt m) = get_issue_url group (AInt n) -> m = n).
Proof.
  assert (Hlabel : forall x, get_issue_label group x = Return ("GH-" +:+ py_str x)).
  { intros x. unfold get_issue_label. simpl. by rewrite append_empty_r. }
  assert (Hurl : forall x,
             get_issue_url group x
             = Return ((py_or (get_option "github_url" (project group)) "https://github.com"
                        +:+ "/" +:+ py_str (opt_arg (get_option "repo" (project group)))
                        +:+ "/issues/") +:+ py_str x)).
  { intros x. unfold get_issue_url. simpl. rewrite append_empty_r.
    f_equal. rewrite append_assoc. f_equal. simpl. f_equal.
    by rewrite append_assoc. }
  assert (Hl : forall x y, get_issue_label group x = get_issue_label group y
                           <-> py_str x = py_str y).
  { intros x y. rewrite !Hlabel. split; [| by intros ->].
    by intros [= Heq]. }
  assert (Hu : forall x y, get_issue_url group x = get_issue_url group y
                           <-> py_str x = py_str y).
  { intros x y. rewrite !Hurl. split; [| by intros ->].
    intros [= Heq]. by apply (inj (String.app _)) in Heq. }
  split; [apply Hl | split; [apply Hu | split]].
  - intros m n Heq. by apply py_str_int_inj, Hl.
  - intros m n Heq. by apply py_str_int_inj, Hu.
Qed.

Lemma issue_identifiers_distinct_witness :
  get_issue_label crash (AInt 42) <> get_issue_label crash (AInt 43)
  /\ get_issue_url (H := offline repo_only) crash (AInt 42)
     <> get_issue_url (H := offline repo_only) crash (AInt 43)
  /\ get_issue_label crash (AInt 42) = get_issue_label crash (AStr "42").
Proof.
  refine (conj _ (conj _ _)).
  - intros Heq.
    pose proof (proj1 (proj2 (proj2 (issue_identifiers_distinct
                  (H := offline repo_only) crash (AInt 42) (AInt 43)))) 42 43 Heq).
    discriminate.
  - intros Heq.
    pose proof (proj2 (proj2 (proj2 (issue_identifiers_distinct
                  (H := offline repo_only) crash (AInt 42) (AInt 43)))) 42 43 Heq).
    discriminate.
  - apply (proj1 (issue_identifiers_distinct
                    (H := offline repo_only) crash (AInt 42) (AStr "42"))).
    reflexivity.
Defined.

(** ** Configuration is not checked *)

(** X13. [create_issue] does not look at [is_configured]: with the
    required fields and a credential with a token it sends its request
    either way.  For a configured project the address holds the stored
    repository name; for a project that is not configured it holds
    [None] (no name stored) or nothing (an empty name) in its place. *)
Theorem create_issue_ignores_configuration `{Host} request group
    (form_data : gmap string pyval) t d auth tok :
  form_data !! "title" = Some t ->
  form_data !! "description" = Some d ->
  get_auth_for_user (user request) = Some auth ->
  tokens auth !! "access_token" = Some tok ->
  exists call,
    snd (create_issue request group form_data) = [call]
    /\ (is_configured (project group) = true ->
        exists repo,
          get_option "repo" (project group) = Some repo
          /\ repo <> ""
          /\ url call
             = py_or (get_option "endpoint" (project group)) "https://api.github.com"
               +:+ "/repos/" +:+ repo +:+ "/issues")
    /\ (is_configured (project group) = false ->
        url call
        = py_or (get_option "endpoint" (project group)) "https://api.github.com"
          +:+ "/repos/None/issues"
        \/ url call
           = py_or (get_option "endpoint" (project group)) "https://api.github.com"
             +:+ "/repos//issues").
Proof.
  intros Ht Hd Hauth Htok. eexists. split.
  - rewrite (create_issue_log _ _ _ _ _ Ht Hd), make_api_request_cases, Hauth, Htok.
    reflexivity.
  - unfold is_configured, api_call, request_url. cbn [url].
    destruct (get_option "repo" (project group)) as [[|c repo]|]; split;
      try discriminate; intros _.
    + by right.
    + by exists (String c repo).
    + by left.
Qed.

Lemma create_issue_ignores_configuration_witness :
  exists call,
    snd (create_issue (H := stub no_options (Some linked) (Return not_found))
           alice crash (cleaned_data report)) = [call]
    /\ url call = "https://api.github.com/repos/None/issues".
Proof.
  destruct (create_issue_ignores_configuration
              (H := stub no_options (Some linked) (Return not_found))
              alice crash (cleaned_data report)
              (PStr "TypeError in view") (PStr "Traceback") linked "s3cr3t"
              eq_refl eq_refl eq_refl eq_refl) as (call & Hcall & _ & Hurl).
  exists call. split; [exact Hcall |].
  destruct (Hurl eq_refl) as [Hnone | Hempty]; [exact Hnone |].
  exfalso. vm_compute in Hcall. injection Hcall as <-. discriminate Hempty.
Defined.

(** ** The other hooks *)

Lemma listing_absorbed `{Host} request group auth tok :
  get_auth_for_user (user request) = Some auth ->
  tokens auth !! "access_token" = Some tok ->
  absorbed_failure (api_call (project group) "assignees" None tok) ->
  get_allowed_assignees request group
  = (Return [], [api_call (project group) "assignees" None tok]).
Proof.
  intros Hauth Htok [msg Hfail | resp body json_resp Hopen Hread Hloads Hstatus].
  - rewrite get_allowed_assignees_requested.
    rewrite (exchange_linked _ _ _ _ _ _ Hauth Htok).
    destruct Hfail as [msg Hopen | resp msg Hopen Hread
                      | resp body msg Hopen Hread Hloads];
      rewrite Hopen; try rewrite Hread; cbn [lift bind ret try_except app];
      [reflexivity | reflexivity |].
    by rewrite Hloads.
  - rewrite (get_allowed_assignees_parsed _ _ _ _ _ _ _ Hauth Htok Hopen Hread Hloads).
    destruct (Z.ltb_spec 399 (status_code resp)); [reflexivity | lia].
Qed.

(** X14. [get_new_issue_form] makes the calls of
    [get_allowed_assignees] and no other.  For a user without a credential
    it raises NotAuthenticated and builds no form.  When GitHub cannot be
    reached, answers with something that is not JSON or refuses, the form
    is built all the same, with no assignee to choose from; it is bound to
    the posted data exactly when there is some. *)
Theorem get_new_issue_form_cases `{Host} {Event : Type}
    (get_initial_form_data : Request -> Group -> Event -> gmap string pyval)
    (request : WebRequest) group event :
  snd (get_new_issue_form get_initial_form_data request group event)
  = snd (get_allowed_assignees (session request) group)
  /\ (get_auth_for_user (user (session request)) = None ->
      get_new_issue_form get_initial_form_data request group event
      = (Raise NotAuthenticated, []))
  /\ (forall auth tok,
      get_auth_for_user (user (session request)) = Some auth ->
      tokens auth !! "access_token" = Some tok ->
      absorbed_failure (api_call (project group) "assignees" None tok) ->
      exists form,
        get_new_issue_form get_initial_form_data request group event
        = (Return form, [api_call (project group) "assignees" None tok])
        /\ assignee_choices form = []
        /\ initial_data form = get_initial_form_data (session request) group event
        /\ (bound_data form = None <-> POST request = ∅)
        /\ (forall data, bound_data form = Some data -> data = POST request)).
Proof.
  split; [| split].
  - unfold get_new_issue_form. by apply bind_quiet.
  - intros Hauth. unfold get_new_issue_form.
    rewrite get_allowed_assignees_requested.
    by rewrite (exchange_unlinked _ _ _ _ Hauth).
  - intros auth tok Hauth Htok Hfail. unfold get_new_issue_form.
    rewrite (listing_absorbed _ _ _ _ Hauth Htok Hfail).
    eexists. split; [reflexivity |]. cbn.
    split; [reflexivity |]. split; [reflexivity |].
    unfold post_or_none. destruct (decide (POST request = ∅)) as [Hempty | Hsome].
    + split; [done |]. discriminate.
    + split; [split; [discriminate | done] |]. by intros data [= <-].
Qed.

Lemma get_new_issue_form_cases_witness :
  get_new_issue_form (H := stub repo_only None (Return users_found))
    (fun _ _ (_ : unit) => ∅) posted crash tt
  = (Raise NotAuthenticated, [])
  /\ exists form,
       get_new_issue_form
         (H := stub repo_only (Some linked) (Raise (RequestException "timed out")))
         (fun _ _ (_ : unit) => ∅) opened crash tt
       = (Return form, [assignees_get])
       /\ assignee_choices form = []
       /\ bound_data form = None.
Proof.
  split.
  - apply (proj1 (proj2 (get_new_issue_form_cases
                           (H := stub repo_only None (Return users_found))
                           (fun _ _ (_ : unit) => ∅) posted crash tt))).
    reflexivity.
  - assert (Hfail : absorbed_failure
                      (H := stub repo_only (Some linked) (Raise (RequestException "timed out")))
                      (api_call
                         (H := stub repo_only (Some linked)
                                 (Raise (RequestException "timed out")))
                         (project crash) "assignees" None "s3cr3t")).
    { apply (listing_fails _ "timed out"), request_fails. reflexivity. }
    destruct (proj2 (proj2 (get_new_issue_form_cases
                (H := stub repo_only (Some linked) (Raise (RequestException "timed out")))
                (fun _ _ (_ : unit) => ∅) opened crash tt))
                linked "s3cr3t" eq_refl eq_refl Hfail)
      as (form & Hform & Hchoices & _ & Hbound & _).
    exists form. split; [exact Hform |]. split; [exact Hchoices |].
    apply Hbound. reflexivity.
Defined.

(** X15. The read-only field of the new issue page shows the repository
    option as stored, and that is the name the request address and the
    issue link are built with: the stored name, or [None] when no name is
    stored.  Without a group there is no field. *)
Theorem read_only_repository `{Host} group segment issue_id :
  get_new_issue_read_only_fields None = []
  /\ (forall repo,
      get_option "repo" (project group) = Some repo ->
      get_new_issue_read_only_fields (Some group)
      = [PDict [("label", PStr "Github Repository"); ("value", PStr repo)]]
      /\ build_request_url (project group) segment
         = Return (py_or (get_option "endpoint" (project group)) "https://api.github.com"
                   +:+ "/repos/" +:+ repo +:+ "/" +:+ segment)
      /\ get_issue_url group issue_id
         = Return (py_or (get_option "github_url" (project group)) "https://github.com"
                   +:+ "/" +:+ repo +:+ "/issues/" +:+ py_str issue_id))
  /\ (get_option "repo" (project group) = None ->
      get_new_issue_read_only_fields (Some group)
      = [PDict [("label", PStr "Github Repository"); ("value", PNone)]]
      /\ build_request_url (project group) segment
         = Return (py_or (get_option "endpoint" (project group)) "https://api.github.com"
                   +:+ "/repos/" +:+ "None" +:+ "/" +:+ segment)
      /\ get_issue_url group issue_id
         = Return (py_or (get_option "github_url" (project group)) "https://github.com"
                   +:+ "/" +:+ "None" +:+ "/issues/" +:+ py_str issue_id)).
Proof.
  split; [reflexivity |].
  rewrite build_request_url_eq.
  unfold get_new_issue_read_only_fields, request_url, get_issue_url.
  split.
  - intros repo ->. simpl. by rewrite append_empty_r.
  - intros ->. simpl. by rewrite append_empty_r.
Qed.

Lemma read_only_repository_witness :
  get_new_issue_read_only_fields (H := offline repo_only) (Some crash)
  = [PDict [("label", PStr "Github Repository"); ("value", PStr "o/r")]]
  /\ get_new_issue_read_only_fields (H := offline no_options) (Some crash)
     = [PDict [("label", PStr "Github Repository"); ("value", PNone)]].
Proof.
  split.
  - apply (proj1 (proj2 (read_only_repository (H := offline repo_only)
                           crash "issues" (AInt 42))) "o/r").
    reflexivity.
  - apply (proj2 (proj2 (read_only_repository (H := offline no_options)
                           crash "issues" (AInt 42)))).
    reflexivity.
Defined.

(** ** Bodies that parse but hold no answer *)

(** X16. A body that parses but lacks what [create_issue] subscripts.
    Under a status of at most 399, an object without [number] raises
    [KeyError('number')]; under either status, a body that is not an
    object (a list, a string, a number, a boolean, [null]) raises
    [TypeError].  Both leave [create_issue] as they are, not as one of its
    validation errors: once the body has parsed, a validation error is
    raised only under a status above 399, with the body's [message]. *)
Theorem create_issue_malformed_body `{Host} request group
    (form_data : gmap string pyval) t d auth tok resp body json_resp :
  form_data !! "title" = Some t ->
  form_data !! "description" = Some d ->
  get_auth_for_user (user request) = Some auth ->
  tokens auth !! "access_token" = Some tok ->
  http_open (api_call (project group) "issues"
               (Some (issue_payload t d (dict_get form_data "assignee"))) tok)
    = Return resp ->
  http_read resp = Return body ->
  loads body = Return json_resp ->
  (forall items,
     json_resp = PDict items ->
     assoc "number" items = None ->
     status_code resp <= 399 ->
     fst (create_issue request group form_data) = Raise (KeyError "number"))
  /\ ((forall items, json_resp <> PDict items) ->
      exists msg,
        fst (create_issue request group form_data) = Raise (TypeError msg))
  /\ (forall message,
      fst (create_issue request group form_data) = Raise (ValidationError message) ->
      399 < status_code resp
      /\ py_getitem json_resp "message" = Return message).
Proof.
  intros Ht Hd Hauth Htok Hopen Hread Hloads.
  rewrite (create_issue_parsed _ _ _ _ _ _ _ _ _ _ Ht Hd Hauth Htok Hopen Hread Hloads).
  cbn [fst]. split; [| split].
  - intros items -> Hitems Hstatus.
    destruct (Z.ltb_spec 399 (status_code resp)); [lia |].
    simpl. by rewrite Hitems.
  - intros Hshape.
    destruct json_resp as [| b | n | s | items | items];
      try (by destruct (Hshape items));
      destruct (399 <? status_code resp); simpl; eauto.
  - intros message.
    destruct (Z.ltb_spec 399 (status_code resp)) as [Hhigh | Hlow].
    + destruct (py_getitem json_resp "message") as [m | e] eqn:Hm; simpl.
      * by intros [= <-].
      * destruct json_resp as [| b | n | s | items | items]; simpl in Hm;
          try (by inversion Hm; subst; discriminate).
        destruct (assoc "message" items); by inversion Hm; subst.
    + destruct json_resp as [| b | n | s | items | items]; simpl;
        try discriminate.
      by destruct (assoc "number" items).
Qed.

Lemma create_issue_malformed_body_witness :
  fst (create_issue (H := canned repo_only (PDict [("id", PInt 7)])) alice crash
         (cleaned_data report))
  = Raise (KeyError "number")
  /\ exists msg,
       fst (create_issue (H := canned repo_only (PList [])) alice crash
              (cleaned_data report))
       = Raise (TypeError msg).
Proof.
  split.
  - apply (proj1 (create_issue_malformed_body
                    (H := canned repo_only (PDict [("id", PInt 7)])) alice crash
                    (cleaned_data report) (PStr "TypeError in view") (PStr "Traceback")
                    linked "s3cr3t" {| status_code := 200; stream := "" |} ""
                    (PDict [("id", PInt 7)])
                    eq_refl eq_refl eq_refl eq_refl eq_refl eq_refl eq_refl)
             [("id", PInt 7)]); first [reflexivity | simpl; lia].
  - apply (proj1 (proj2 (create_issue_malformed_body
                    (H := canned repo_only (PList [])) alice crash
                    (cleaned_data report) (PStr "TypeError in view") (PStr "Traceback")
                    linked "s3cr3t" {| status_code := 200; stream := "" |} ""
                    (PList [])
                    eq_refl eq_refl eq_refl eq_refl eq_refl eq_refl eq_refl))).
    intros items. discriminate.
Defined.

(** X17. With a credential with a token, [get_allowed_assignees] sends
    one request, whatever the network and the parser answer: to the
    assignees address, with the token in the [Authorization] header and
    no payload. *)
Theorem get_allowed_assignees_one_request `{Host} request group auth tok :
  get_auth_for_user (user request) = Some auth ->
  tokens auth !! "access_token" = Some tok ->
  snd (get_allowed_assignees request group)
  = [{| url := request_url (project group) "assignees";
        json := None;
        headers := [("Authorization", "token " +:+ tok)] |}].
Proof.
  intros Hauth Htok.
  by rewrite get_allowed_assignees_log, make_api_request_cases, Hauth, Htok.
Qed.

Lemma get_allowed_assignees_one_request_witness :
  snd (get_allowed_assignees (H := stub enterprise (Some linked) (Return gateway_html))
         alice crash)
  = [{| url := "https://ghe.example.com/api/v3/repos/o/r/assignees";
        json := None;
        headers := [("Authorization", "token s3cr3t")] |}].
Proof.
  apply (get_allowed_assignees_one_request
           (H := stub enterprise (Some linked) (Return gateway_html))
           alice crash linked "s3cr3t"); reflexivity.
Defined.
